(** * Kubernetes client configuration resolution (pilot/pkg/serviceregistry/kube)

    A shallow embedding of [client.go]: [ResolveConfig], [CreateInterface],
    [CreateInterfaceFromClusterConfig] and [createInterface].

    The Go code talks to the process environment, the file system, the
    logger and the client-go library.  Every such call is modelled as an
    operation of a small monad [M]: it reads its answer from a [World]
    (the state of the machine the program runs on) and appends one
    [Event] to the trace of the run, so that statements such as "the
    environment is never consulted" or "one log line is emitted" are
    statements about the trace. *)

From Stdlib Require Import ZArith.
From stdpp Require Import base option list strings gmap.

Local Open Scope string_scope.
Local Open Scope list_scope.

(** ** Go errors *)

(** Error numbers a failing [stat] can report. *)
Inductive Errno : Set :=
| ENOENT | EACCES | ENOTDIR | ELOOP | ENAMETOOLONG | EIO.

(** The values of Go's [error] interface that this package meets:
    [*os.PathError], the result of [fmt.Errorf] (format and arguments are
    kept apart, the verb [%q] is not expanded), [*multierror.Error], and
    the errors of the client-go library, which are opaque here. *)
#[warnings="-register-all"]
Inductive error : Type :=
| PathError (Op Path : string) (Err : Errno)
| Errorf (format : string) (args : list string)
| MultiError (Errors : list error)
| LibraryError (msg : string).

(** ** Types of the collaborating packages *)

Module os.

(** Modelled from the spec: [os.FileInfo], the metadata returned by a
    successful stat; [Size] is an int64. *)
Record FileInfo : Type := { Name : string; Size : Z; IsDir : bool }.

(** [os.IsNotExist]: the error, unwrapped from its [*PathError], is ENOENT. *)
Definition IsNotExist (err : error) : bool :=
  match err with
  | PathError _ _ ENOENT => true
  | _ => false
  end.

End os.

Module user.

(** Modelled from the spec: [user.User] of os/user. *)
Record User : Type :=
  { Uid : string; Gid : string; Username : string; HomeDir : string }.

End user.

Module fmt.

Definition Errorf (format : string) (args : list string) : error :=
  Errorf format args.

End fmt.

Module multierror.

(** [flatten]: an appended [*multierror.Error] contributes its members. *)
Definition flatten (errs : list error) : list error :=
  mbind (M := list)
    (fun e => match e with MultiError es => es | _ => [e] end) errs.

(** [multierror.Append err errs...]: extends [err] when it already is a
    [*multierror.Error], and otherwise starts a new one with [err] first. *)
Definition Append (err : error) (errs : list error) : error :=
  match err with
  | MultiError es => MultiError (es ++ flatten errs)
  | _ => MultiError (flatten (err :: errs))
  end.

End multierror.

Module rest.

(** Modelled from the spec: [rest.Config], the low-level connection
    parameters (server address, authentication, TLS settings). *)
Record Config : Type :=
  { Host : string; BearerToken : string; CAFile : string }.

End rest.

Module clientcmdapi.

(** Modelled from the spec: [clientcmdapi.Config], the structured cluster
    configuration (clusters, users, contexts, current context). *)
Record Cluster : Type := { Server : string; CertificateAuthority : string }.
Record AuthInfo : Type := { Token : string; ClientCertificate : string }.
Record Context : Type :=
  { ContextCluster : string; ContextAuthInfo : string; Namespace : string }.
Record Config : Type :=
  { Clusters : gmap string Cluster;
    AuthInfos : gmap string AuthInfo;
    Contexts : gmap string Context;
    CurrentContext : string }.

End clientcmdapi.

Module clientcmd.

(** Modelled from the spec: [clientcmd.ConfigOverrides], the override
    policy combined with a cluster configuration. *)
Record ConfigOverrides : Type :=
  { AuthInfo : clientcmdapi.AuthInfo;
    ClusterDefaults : clientcmdapi.Cluster;
    ClusterInfo : clientcmdapi.Cluster;
    Context : clientcmdapi.Context;
    CurrentContext : string;
    Timeout : string }.

(** The composite literal [clientcmd.ConfigOverrides{}]: every field has
    its zero value. *)
Definition ConfigOverrides_zero : ConfigOverrides :=
  {| AuthInfo := {| clientcmdapi.Token := ""; clientcmdapi.ClientCertificate := "" |};
     ClusterDefaults :=
       {| clientcmdapi.Server := ""; clientcmdapi.CertificateAuthority := "" |};
     ClusterInfo :=
       {| clientcmdapi.Server := ""; clientcmdapi.CertificateAuthority := "" |};
     Context :=
       {| clientcmdapi.ContextCluster := ""; clientcmdapi.ContextAuthInfo := "";
          clientcmdapi.Namespace := "" |};
     CurrentContext := "";
     Timeout := "" |}.

(** Modelled from the spec: the [ClientConfig] built by
    [NewDefaultClientConfig], a cluster configuration together with the
    name of its current context and an override policy. *)
Record ClientConfig : Type :=
  { config : clientcmdapi.Config;
    contextName : string;
    overrides : ConfigOverrides }.

End clientcmd.

Module kubernetes.

(** Modelled from the spec: the client handle ([kubernetes.Interface],
    implemented by [*Clientset]); it keeps the connection parameters it
    was built from. *)
Record Clientset : Type := { clientsetConfig : rest.Config }.

End kubernetes.

(** ** The world a run observes, and the trace it leaves *)

(** Library calls that return [(value, error)] answer with a sum: the
    documented contract of os, os/user and client-go is that the value is
    usable exactly when the error is nil. *)
Record World : Type :=
  { environ : gmap string string;
    current_user : user.User + error;
    fs_stat : string -> os.FileInfo + Errno;
    in_cluster : rest.Config + error;
    new_for_config : rest.Config -> kubernetes.Clientset + error;
    load_from_file : string -> clientcmdapi.Config + error;
    client_config : clientcmd.ClientConfig -> rest.Config + error }.

Inductive Event : Type :=
| EvGetenv (key : string)
| EvUserCurrent
| EvStat (name : string)
| EvLogInfo (msg : string)
| EvInClusterConfig
| EvNewForConfig (c : rest.Config)
| EvLoadFromFile (filename : string)
| EvNewDefaultClientConfig (c : clientcmdapi.Config)
    (o : clientcmd.ConfigOverrides)
| EvClientConfig (cc : clientcmd.ClientConfig).

(** A call either returns or panics (a nil pointer dereference). *)
Inductive Outcome (A : Type) : Type :=
| Returned (a : A)
| Panicked (msg : string).
Arguments Returned {A} a.
Arguments Panicked {A} msg.

Definition M (A : Type) : Type := World -> Outcome A * list Event.

Definition ret {A} (a : A) : M A := fun _ => (Returned a, []).

Definition bind {A B} (m : M A) (k : A -> M B) : M B :=
  fun w =>
    match m w with
    | (Returned a, t) => let '(o, t') := k a w in (o, t ++ t')
    | (Panicked msg, t) => (Panicked msg, t)
    end.

Definition panic {A} (msg : string) : M A := fun _ => (Panicked msg, []).

Definition ask {A} (e : Event) (answer : World -> A) : M A :=
  fun w => (Returned (answer w), [e]).

Notation "'do' x <- m ; k" := (bind m (fun x => k))
  (at level 10, x name, m at level 100, k at level 200,
   format "'[v' 'do'  x  <-  m ; '/' k ']'").
Notation "m ;; k" := (bind m (fun _ => k))
  (at level 100, k at level 200, right associativity).

Definition result {A} (m : M A) (w : World) : Outcome A := fst (m w).
Definition trace {A} (m : M A) (w : World) : list Event := snd (m w).

(** ** The calls into the collaborating packages *)

(** [os.Getenv]: the value of the variable, empty when it is unset. *)
Definition os_Getenv (key : string) : M string :=
  ask (EvGetenv key) (fun w => default "" (environ w !! key)).

(** [user.Current]. *)
Definition user_Current : M (user.User + error) :=
  ask EvUserCurrent current_user.

(** Modelled from the spec: [os.Stat] belongs to Go's standard library.
    The empty name denotes no file, so its stat always fails with ENOENT;
    any other name is answered by the file system.  An error is always a
    [*PathError]. *)
Definition os_Stat (name : string) : M (os.FileInfo + error) :=
  ask (EvStat name)
    (fun w =>
       if decide (name = "") then inr (PathError "stat" name ENOENT)
       else match fs_stat w name with
            | inl info => inl info
            | inr errno => inr (PathError "stat" name errno)
            end).

(** [log.Info]. *)
Definition log_Info (msg : string) : M unit :=
  ask (EvLogInfo msg) (fun _ => tt).

(** [rest.InClusterConfig]. *)
Definition rest_InClusterConfig : M (rest.Config + error) :=
  ask EvInClusterConfig in_cluster.

(** [kubernetes.NewForConfig]. *)
Definition kubernetes_NewForConfig (c : rest.Config)
  : M (kubernetes.Clientset + error) :=
  ask (EvNewForConfig c) (fun w => new_for_config w c).

(** [clientcmd.LoadFromFile]. *)
Definition clientcmd_LoadFromFile (filename : string)
  : M (clientcmdapi.Config + error) :=
  ask (EvLoadFromFile filename) (fun w => load_from_file w filename).

(** [clientcmd.NewDefaultClientConfig]: records the configuration, its
    current context and the overrides. *)
Definition clientcmd_NewDefaultClientConfig (c : clientcmdapi.Config)
    (o : clientcmd.ConfigOverrides) : M clientcmd.ClientConfig :=
  ask (EvNewDefaultClientConfig c o)
    (fun _ => {| clientcmd.config := c;
                 clientcmd.contextName := clientcmdapi.CurrentContext c;
                 clientcmd.overrides := o |}).

(** The method [ClientConfig()] of a [clientcmd.ClientConfig]. *)
Definition ClientConfig_ClientConfig (cc : clientcmd.ClientConfig)
  : M (rest.Config + error) :=
  ask (EvClientConfig cc) (fun w => client_config w cc).

(** [*p] on a pointer: panics on nil. *)
Definition deref {A} (p : option A) : M A :=
  match p with
  | Some a => ret a
  | None => panic "invalid memory address or nil pointer dereference"
  end.

(** ** Package kube *)

Module kube.

(** [ResolveConfig] checks whether to use the in-cluster or out-of-cluster
    config (client.go, lines 37-70). *)
Definition ResolveConfig (kubeconfig : string) : M (string * option error) :=
  do kubeconfig <-
    (if decide (kubeconfig = "") then os_Getenv "KUBECONFIG"
     else ret kubeconfig);
  do kubeconfig <-
    (if decide (kubeconfig = "") then
       do r <- user_Current;
       match r with
       | inl usr =>
           let defaultCfg := user.HomeDir usr +:+ "/.kube/config" in
           do s <- os_Stat kubeconfig;
           match s with
           | inr _ => ret defaultCfg
           | inl _ => ret kubeconfig
           end
       | inr _ => ret kubeconfig
       end
     else ret kubeconfig);
  if decide (kubeconfig <> "") then
    do s <- os_Stat kubeconfig;
    match s with
    | inr err =>
        let err :=
          if os.IsNotExist err then
            fmt.Errorf "kubernetes configuration file %q does not exist"
              [kubeconfig]
          else
            multierror.Append err
              [fmt.Errorf "kubernetes configuration file %q" [kubeconfig]] in
        ret ("", Some err)
    | inl info =>
        if decide (os.Size info = 0%Z) then
          log_Info "using in-cluster configuration";;
          ret ("", None)
        else ret (kubeconfig, None)
    end
  else ret (kubeconfig, None).

(** [createInterface] creates rest config and kubernetes interface from the
    passed cluster's config struct (client.go, lines 105-116). *)
Definition createInterface (clusterConfig : option clientcmdapi.Config)
  : M (option rest.Config * option kubernetes.Clientset * option error) :=
  do cfg <- deref clusterConfig;
  do clientConfig <-
    clientcmd_NewDefaultClientConfig cfg clientcmd.ConfigOverrides_zero;
  do r <- ClientConfig_ClientConfig clientConfig;
  match r with
  | inr err => ret (None, None, Some err)
  | inl rest =>
      do c <- kubernetes_NewForConfig rest;
      match c with
      | inr err => ret (None, None, Some err)
      | inl client => ret (Some rest, Some client, None)
      end
  end.

(** [CreateInterface] creates the Kubernetes interface from a kubeconfig
    file (client.go, lines 73-96). *)
Definition CreateInterface (kubeconfig : string)
  : M (option rest.Config * option kubernetes.Clientset * option error) :=
  do r <- ResolveConfig kubeconfig;
  let '(kube, err) := r in
  match err with
  | Some err => ret (None, None, Some err)
  | None =>
      if decide (kube = "") then
        do r1 <- rest_InClusterConfig;
        match r1 with
        | inl restConfig =>
            do r2 <- kubernetes_NewForConfig restConfig;
            match r2 with
            | inl client => ret (Some restConfig, Some client, None)
            | inr err2 => ret (None, None, Some err2)
            end
        | inr err1 => ret (None, None, Some err1)
        end
      else
        do l <- clientcmd_LoadFromFile kube;
        match l with
        | inr err => ret (None, None, Some err)
        | inl clusterConfig => createInterface (Some clusterConfig)
        end
  end.

(** [CreateInterfaceFromClusterConfig] creates the Kubernetes interface
    from an in-memory cluster config struct (client.go, lines 99-101). *)
Definition CreateInterfaceFromClusterConfig
    (clusterConfig : option clientcmdapi.Config)
  : M (option rest.Config * option kubernetes.Clientset * option error) :=
  createInterface clusterConfig.

End kube.

(** ** The two halves of [ResolveConfig] *)

(** Lines 39-51: the choice of the candidate path. *)
Definition resolveCandidate (kubeconfig : string) : M string :=
  do kubeconfig <-
    (if decide (kubeconfig = "") then os_Getenv "KUBECONFIG"
     else ret kubeconfig);
  if decide (kubeconfig = "") then
    do r <- user_Current;
    match r with
    | inl usr =>
        let defaultCfg := user.HomeDir usr +:+ "/.kube/config" in
        do s <- os_Stat kubeconfig;
        match s with
        | inr _ => ret defaultCfg
        | inl _ => ret kubeconfig
        end
    | inr _ => ret kubeconfig
    end
  else ret kubeconfig.

(** Lines 52-69: the examination of the candidate path. *)
Definition checkCandidate (kubeconfig : string) : M (string * option error) :=
  if decide (kubeconfig <> "") then
    do s <- os_Stat kubeconfig;
    match s with
    | inr err =>
        let err :=
          if os.IsNotExist err then
            fmt.Errorf "kubernetes configuration file %q does not exist"
              [kubeconfig]
          else
            multierror.Append err
              [fmt.Errorf "kubernetes configuration file %q" [kubeconfig]] in
        ret ("", Some err)
    | inl info =>
        if decide (os.Size info = 0%Z) then
          log_Info "using in-cluster configuration";;
          ret ("", None)
        else ret (kubeconfig, None)
    end
  else ret (kubeconfig, None).

(** ** Worlds used as concrete inputs *)

Definition file (name : string) (size : Z) : os.FileInfo :=
  {| os.Name := name; os.Size := size; os.IsDir := false |}.

Definition alice : user.User :=
  {| user.Uid := "1000"; user.Gid := "1000"; user.Username := "alice";
     user.HomeDir := "/home/alice" |}.

Definition bob : user.User :=
  {| user.Uid := "1001"; user.Gid := "1001"; user.Username := "bob";
     user.HomeDir := "/home/bob" |}.

Definition cluster_rest : rest.Config :=
  {| rest.Host := "https://10.0.0.1:443"; rest.BearerToken := "token";
     rest.CAFile := "/var/run/secrets/kubernetes.io/serviceaccount/ca.crt" |}.

Definition sample_config : clientcmdapi.Config :=
  {| clientcmdapi.Clusters :=
       {[ "c1" := {| clientcmdapi.Server := "https://k8s.example:6443";
                     clientcmdapi.CertificateAuthority := "" |} ]};
     clientcmdapi.AuthInfos :=
       {[ "u1" := {| clientcmdapi.Token := "secret";
                     clientcmdapi.ClientCertificate := "" |} ]};
     clientcmdapi.Contexts :=
       {[ "ctx" := {| clientcmdapi.ContextCluster := "c1";
                      clientcmdapi.ContextAuthInfo := "u1";
                      clientcmdapi.Namespace := "default" |} ]};
     clientcmdapi.CurrentContext := "ctx" |}.

(** A machine outside any cluster: [/a/cfg] and [/b/cfg] are non-empty
    files, [/empty] and [/home/bob/.kube/config] are zero-byte files,
    [/secret/cfg] cannot be accessed, every other path is missing; the
    environment and the current user are as given. *)
Definition laptop (env : gmap string string) (usr : user.User + error)
  : World :=
  {| environ := env;
     current_user := usr;
     fs_stat := fun name =>
       if decide (name = "/a/cfg") then inl (file "cfg" 120)
       else if decide (name = "/b/cfg") then inl (file "cfg" 64)
       else if decide (name = "/empty") then inl (file "empty" 0)
       else if decide (name = "/home/bob/.kube/config") then
         inl (file "config" 0)
       else if decide (name = "/secret/cfg") then inr EACCES
       else inr ENOENT;
     in_cluster := inr (LibraryError "unable to load in-cluster configuration");
     new_for_config := fun c => inl {| kubernetes.clientsetConfig := c |};
     load_from_file := fun _ => inl sample_config;
     client_config := fun cc =>
       if decide (clientcmd.contextName cc = "ctx") then
         inl {| rest.Host := "https://k8s.example:6443";
                rest.BearerToken := "secret"; rest.CAFile := "" |}
       else inr (LibraryError "invalid configuration: no configuration has been provided") |}.

Definition no_user : user.User + error :=
  inr (LibraryError "user: Current not implemented").

(** KUBECONFIG points at [/b/cfg]; the user is alice. *)
Definition laptop_with_env : World :=
  laptop {[ "KUBECONFIG" := "/b/cfg" ]} (inl alice).

(** KUBECONFIG points at the zero-byte file [/empty]. *)
Definition laptop_with_empty_env_file : World :=
  laptop {[ "KUBECONFIG" := "/empty" ]} (inl alice).

(** KUBECONFIG is unset; alice has no [~/.kube/config]. *)
Definition laptop_of_alice : World := laptop ∅ (inl alice).

(** KUBECONFIG is set but empty; bob's [~/.kube/config] is a zero-byte
    file. *)
Definition laptop_of_bob : World := laptop {[ "KUBECONFIG" := "" ]} (inl bob).

(** KUBECONFIG is unset and there is no current user. *)
Definition headless : World := laptop ∅ no_user.

(** A container inside a cluster: no KUBECONFIG, no user, no file, and an
    in-cluster identity. *)
Definition pod : World :=
  {| environ := ∅;
     current_user := no_user;
     fs_stat := fun _ => inr ENOENT;
     in_cluster := inl cluster_rest;
     new_for_config := fun c => inl {| kubernetes.clientsetConfig := c |};
     load_from_file := fun _ => inr (LibraryError "no such file or directory");
     client_config := fun _ => inr (LibraryError "invalid configuration") |}.

(** ** Observations on traces and results *)

Definition is_Getenv (e : Event) : bool :=
  match e with EvGetenv _ => true | _ => false end.

Definition is_UserCurrent (e : Event) : bool :=
  match e with EvUserCurrent => true | _ => false end.

Definition is_LogInfo (e : Event) : bool :=
  match e with EvLogInfo _ => true | _ => false end.

(** Events that read a configuration file or build a client from one. *)
Definition is_file_based (e : Event) : bool :=
  match e with
  | EvLoadFromFile _ | EvNewDefaultClientConfig _ _ | EvClientConfig _ => true
  | _ => false
  end.

(** The override policy seen by an event is the empty one. *)
Definition no_overrides (e : Event) : Prop :=
  match e with
  | EvNewDefaultClientConfig _ o => o = clientcmd.ConfigOverrides_zero
  | EvClientConfig cc => clientcmd.overrides cc = clientcmd.ConfigOverrides_zero
  | _ => True
  end.

(** Both values and no error, or no value and an error. *)
Definition both_or_neither
    (r : option rest.Config * option kubernetes.Clientset * option error)
  : Prop :=
  (exists restConfig client, r = (Some restConfig, Some client, None)) \/
  (exists err, r = (None, None, Some err)).

(** Events that are calls into client-go. *)
Definition is_client_go (e : Event) : bool :=
  match e with
  | EvInClusterConfig | EvNewForConfig _ | EvLoadFromFile _
  | EvNewDefaultClientConfig _ _ | EvClientConfig _ => true
  | _ => false
  end.

Definition is_InClusterConfig (e : Event) : bool :=
  match e with EvInClusterConfig => true | _ => false end.

Definition is_LoadFromFile (e : Event) : bool :=
  match e with EvLoadFromFile _ => true | _ => false end.

Definition is_NewForConfig (e : Event) : bool :=
  match e with EvNewForConfig _ => true | _ => false end.

(** The value [os.Getenv "KUBECONFIG"] reads in a world. *)
Definition KUBECONFIG_value (w : World) : string :=
  default "" (environ w !! "KUBECONFIG").

(** The client config [createInterface] derives from a configuration. *)
Definition derived_client_config (cfg : clientcmdapi.Config)
  : clientcmd.ClientConfig :=
  {| clientcmd.config := cfg;
     clientcmd.contextName := clientcmdapi.CurrentContext cfg;
     clientcmd.overrides := clientcmd.ConfigOverrides_zero |}.

Definition root : user.User :=
  {| user.Uid := "0"; user.Gid := "0"; user.Username := "root";
     user.HomeDir := "/root" |}.

(** A container inside a cluster whose process has a user with a home
    directory, and no file at all. *)
Definition pod_with_home : World :=
  {| environ := ∅;
     current_user := inl root;
     fs_stat := fun _ => inr ENOENT;
     in_cluster := inl cluster_rest;
     new_for_config := fun c => inl {| kubernetes.clientsetConfig := c |};
     load_from_file := fun _ => inr (LibraryError "no such file or directory");
     client_config := fun _ => inr (LibraryError "invalid configuration") |}.

(** A machine on which [/a/cfg] is a non-empty file that does not parse,
    and [/b/cfg] parses to a configuration without a usable context. *)
Definition broken_laptop : World :=
  {| environ := {[ "KUBECONFIG" := "" ]};
     current_user := inl bob;
     fs_stat := fun name =>
       if decide (name = "/a/cfg") then inl (file "cfg" 7)
       else if decide (name = "/b/cfg") then inl (file "cfg" 300)
       else inr EIO;
     in_cluster := inl cluster_rest;
     new_for_config := fun _ => inr (LibraryError "host must be a URL");
     load_from_file := fun name =>
       if decide (name = "/b/cfg") then inl sample_config
       else inr (LibraryError "yaml: did not find expected key");
     client_config := fun _ =>
       inr (LibraryError "invalid configuration: context was not found") |}.

(** * Properties *)

(** ** The monad *)

Lemma bind_run {A B} (m : M A) (k : A -> M B) w a t o t' :
  m w = (Returned a, t) -> k a w = (o, t') -> bind m k w = (o, t ++ t').
Proof. intros Hm Hk. unfold bind. now rewrite Hm, Hk. Qed.

Lemma bind_assoc {A B C} (m : M A) (f : A -> M B) (g : B -> M C) w :
  bind (bind m f) g w = bind m (fun a => bind (f a) g) w.
Proof.
  unfold bind. destruct (m w) as [[a|msg] t]; [|reflexivity].
  destruct (f a w) as [[b|msg] t1]; [|reflexivity].
  destruct (g b w) as [o t2]. now rewrite app_assoc.
Qed.

Lemma bind_ret_l {A B} (a : A) (k : A -> M B) w : bind (ret a) k w = k a w.
Proof. unfold bind, ret. now destruct (k a w). Qed.

(** [ResolveConfig] is the choice of a candidate followed by its
    examination. *)
Lemma ResolveConfig_split kubeconfig w :
  kube.ResolveConfig kubeconfig w
  = bind (resolveCandidate kubeconfig) checkCandidate w.
Proof. unfold resolveCandidate. now rewrite bind_assoc. Qed.

Lemma ResolveConfig_run kubeconfig w c t o t' :
  resolveCandidate kubeconfig w = (Returned c, t) ->
  checkCandidate c w = (o, t') ->
  kube.ResolveConfig kubeconfig w = (o, t ++ t').
Proof. intros Hc Hk. rewrite ResolveConfig_split. eauto using bind_run. Qed.

(** ** Where the candidate comes from *)

Ltac run :=
  unfold os_Getenv, user_Current, os_Stat, log_Info, rest_InClusterConfig,
    kubernetes_NewForConfig, clientcmd_LoadFromFile,
    clientcmd_NewDefaultClientConfig, ClientConfig_ClientConfig, deref;
  unfold bind, ask, ret, panic; simpl.

Lemma os_Stat_empty w :
  os_Stat "" w = (Returned (inr (PathError "stat" "" ENOENT)), [EvStat ""]).
Proof. reflexivity. Qed.

Lemma os_Stat_found name w info :
  result (os_Stat name) w = Returned (inl info) ->
  name <> "" /\ os_Stat name w = (Returned (inl info), [EvStat name]).
Proof.
  unfold result. run. case_decide as Hname; [discriminate|].
  destruct (fs_stat w name); [|discriminate].
  intros [= ->]. auto.
Qed.

Lemma os_Stat_failed name w err :
  result (os_Stat name) w = Returned (inr err) ->
  (exists errno, err = PathError "stat" name errno) /\
  os_Stat name w = (Returned (inr err), [EvStat name]).
Proof.
  unfold result. run. case_decide as Hname.
  - intros [= <-]. eauto.
  - destruct (fs_stat w name); [discriminate|]. intros [= <-]. eauto.
Qed.

Lemma resolveCandidate_explicit kubeconfig w :
  kubeconfig <> "" -> resolveCandidate kubeconfig w = (Returned kubeconfig, []).
Proof.
  intros Hne. unfold resolveCandidate.
  destruct (decide (kubeconfig = "")) as [|_]; [done|].
  rewrite bind_ret_l. now destruct (decide (kubeconfig = "")).
Qed.

Lemma resolveCandidate_env w v :
  environ w !! "KUBECONFIG" = Some v -> v <> "" ->
  resolveCandidate "" w = (Returned v, [EvGetenv "KUBECONFIG"]).
Proof.
  intros Henv Hne. unfold resolveCandidate. run. rewrite Henv. simpl.
  now destruct (decide (v = "")).
Qed.

Lemma Getenv_unset_or_empty w :
  environ w !! "KUBECONFIG" = None \/ environ w !! "KUBECONFIG" = Some "" ->
  default "" (environ w !! "KUBECONFIG") = "".
Proof. now intros [-> | ->]. Qed.

Lemma resolveCandidate_home w usr :
  environ w !! "KUBECONFIG" = None \/ environ w !! "KUBECONFIG" = Some "" ->
  current_user w = inl usr ->
  resolveCandidate "" w
  = (Returned (user.HomeDir usr +:+ "/.kube/config"),
     [EvGetenv "KUBECONFIG"; EvUserCurrent; EvStat ""]).
Proof.
  intros Henv Husr. unfold resolveCandidate. run.
  rewrite (Getenv_unset_or_empty w Henv).
  destruct (decide ("" = "")) as [_|]; [|done]. now rewrite Husr.
Qed.

Lemma resolveCandidate_no_home w err :
  environ w !! "KUBECONFIG" = None \/ environ w !! "KUBECONFIG" = Some "" ->
  current_user w = inr err ->
  resolveCandidate "" w
  = (Returned "", [EvGetenv "KUBECONFIG"; EvUserCurrent]).
Proof.
  intros Henv Husr. unfold resolveCandidate. run.
  rewrite (Getenv_unset_or_empty w Henv).
  destruct (decide ("" = "")) as [_|]; [|done]. now rewrite Husr.
Qed.

(** The choice of the candidate always returns, and logs nothing. *)
Lemma resolveCandidate_returns kubeconfig w :
  exists c t, resolveCandidate kubeconfig w = (Returned c, t) /\
              List.filter is_LogInfo t = [].
Proof.
  destruct (decide (kubeconfig = "")) as [->|Hne].
  - destruct (environ w !! "KUBECONFIG") as [v|] eqn:Henv.
    + destruct (decide (v = "")) as [->|Hv].
      * destruct (current_user w) as [usr|err] eqn:Husr.
        -- erewrite resolveCandidate_home by eauto. eauto.
        -- erewrite resolveCandidate_no_home by eauto. eauto.
      * erewrite resolveCandidate_env by eauto. eauto.
    + destruct (current_user w) as [usr|err] eqn:Husr.
      * erewrite resolveCandidate_home by eauto. eauto.
      * erewrite resolveCandidate_no_home by eauto. eauto.
  - rewrite resolveCandidate_explicit by done. eauto.
Qed.

(** ** What the examination of a candidate answers *)

Lemma checkCandidate_none w : checkCandidate "" w = (Returned ("", None), []).
Proof. reflexivity. Qed.

Lemma checkCandidate_missing c w err :
  c <> "" ->
  result (os_Stat c) w = Returned (inr err) -> os.IsNotExist err = true ->
  checkCandidate c w
  = (Returned
       ("", Some (Errorf "kubernetes configuration file %q does not exist" [c])),
     [EvStat c]).
Proof.
  intros Hc Hstat Hne. apply os_Stat_failed in Hstat as [_ Hstat].
  unfold checkCandidate. destruct (decide (c <> "")); [|done].
  unfold bind. rewrite Hstat. simpl. now rewrite Hne.
Qed.

Lemma checkCandidate_inaccessible c w err :
  c <> "" ->
  result (os_Stat c) w = Returned (inr err) -> os.IsNotExist err = false ->
  checkCandidate c w
  = (Returned
       ("", Some (MultiError
                    [err; Errorf "kubernetes configuration file %q" [c]])),
     [EvStat c]).
Proof.
  intros Hc Hstat Hne. apply os_Stat_failed in Hstat as [[errno ->] Hstat].
  unfold checkCandidate. destruct (decide (c <> "")); [|done].
  unfold bind. rewrite Hstat. now destruct errno.
Qed.

Lemma checkCandidate_empty_file c w info :
  result (os_Stat c) w = Returned (inl info) -> os.Size info = 0%Z ->
  checkCandidate c w
  = (Returned ("", None), [EvStat c; EvLogInfo "using in-cluster configuration"]).
Proof.
  intros Hstat Hsize. apply os_Stat_found in Hstat as [Hc Hstat].
  unfold checkCandidate. destruct (decide (c <> "")); [|done].
  unfold bind at 1. rewrite Hstat.
  now destruct (decide (os.Size info = 0%Z)).
Qed.

Lemma checkCandidate_config_file c w info :
  result (os_Stat c) w = Returned (inl info) -> os.Size info <> 0%Z ->
  checkCandidate c w = (Returned (c, None), [EvStat c]).
Proof.
  intros Hstat Hsize. apply os_Stat_found in Hstat as [Hc Hstat].
  unfold checkCandidate. destruct (decide (c <> "")); [|done].
  unfold bind at 1. rewrite Hstat.
  now destruct (decide (os.Size info = 0%Z)).
Qed.

(** The four answers above are all there are. *)
Lemma checkCandidate_cases c w :
  checkCandidate c w = (Returned (c, None), [])
  \/ checkCandidate c w = (Returned (c, None), [EvStat c])
  \/ checkCandidate c w
     = (Returned ("", None),
        [EvStat c; EvLogInfo "using in-cluster configuration"])
  \/ exists err, checkCandidate c w = (Returned ("", Some err), [EvStat c]).
Proof.
  destruct (decide (c = "")) as [->|Hc]; [now left|].
  destruct (result (os_Stat c) w) as [[info|err]|msg] eqn:Hstat.
  - destruct (decide (os.Size info = 0%Z)).
    + right; right; left. eauto using checkCandidate_empty_file.
    + right; left. eauto using checkCandidate_config_file.
  - right; right; right. destruct (os.IsNotExist err) eqn:Hne.
    + eauto using checkCandidate_missing.
    + eauto using checkCandidate_inaccessible.
  - discriminate.
Qed.

(** Examining a candidate consults neither the environment nor the user
    database, and nothing file-based of client-go. *)
Lemma checkCandidate_trace c w :
  Forall (fun e => is_Getenv e = false /\ is_UserCurrent e = false
                   /\ is_file_based e = false)
    (trace (checkCandidate c) w).
Proof.
  unfold trace.
  destruct (checkCandidate_cases c w) as [H|[H|[H|[err H]]]];
    rewrite H; simpl; repeat constructor.
Qed.

(** Every call of [ResolveConfig] returns, with an error or a path but not
    both, and its trace holds nothing file-based of client-go. *)
Lemma ResolveConfig_answers kubeconfig w :
  exists path err t,
    kube.ResolveConfig kubeconfig w = (Returned (path, err), t) /\
    (err = None \/ path = "") /\
    Forall (fun e => is_file_based e = false) t /\
    Forall no_overrides t.
Proof.
  assert (exists c t, resolveCandidate kubeconfig w = (Returned c, t) /\
            Forall (fun e => is_file_based e = false) t /\
            Forall no_overrides t) as (c & t & Hc & Hfile & Hover).
  { destruct (decide (kubeconfig = "")) as [->|Hne].
    - destruct (environ w !! "KUBECONFIG") as [v|] eqn:Henv;
        [destruct (decide (v = "")) as [->|Hv]|];
        try (destruct (current_user w) as [usr|err] eqn:Husr;
             [erewrite resolveCandidate_home by eauto
             |erewrite resolveCandidate_no_home by eauto]);
        try erewrite resolveCandidate_env by eauto;
        do 2 eexists; (split; [reflexivity|]); split; repeat constructor.
    - rewrite resolveCandidate_explicit by done.
      do 2 eexists; (split; [reflexivity|]); split; constructor. }
  destruct (checkCandidate_cases c w) as [H|[H|[H|[e H]]]];
    rewrite (ResolveConfig_run _ _ _ _ _ _ Hc H);
    do 3 eexists; (split; [reflexivity|]);
    (split; [auto|]); split; apply Forall_app; split; auto;
    repeat constructor.
Qed.

(** ** ResolveConfig *)

(** C1. A non-empty explicit path is the candidate, and neither the
    environment variable nor the user's home directory is consulted; with
    an empty explicit path and a set, non-empty KUBECONFIG the value of the
    variable is the candidate, and the home directory is not consulted.
    With explicit path [/a/cfg], KUBECONFIG [/b/cfg] and both files
    existing and non-empty, the answer is [/a/cfg]. *)
Theorem ResolveConfig_priority (w : World) :
  (forall explicit, explicit <> "" ->
     resolveCandidate explicit w = (Returned explicit, []) /\
     kube.ResolveConfig explicit w = checkCandidate explicit w /\
     Forall (fun e => is_Getenv e = false /\ is_UserCurrent e = false)
       (trace (kube.ResolveConfig explicit) w)) /\
  (forall v, environ w !! "KUBECONFIG" = Some v -> v <> "" ->
     resolveCandidate "" w = (Returned v, [EvGetenv "KUBECONFIG"]) /\
     kube.ResolveConfig "" w
     = (result (checkCandidate v) w,
        EvGetenv "KUBECONFIG" :: trace (checkCandidate v) w) /\
     Forall (fun e => is_UserCurrent e = false)
       (trace (kube.ResolveConfig "") w)) /\
  (forall ia ib,
     environ w !! "KUBECONFIG" = Some "/b/cfg" ->
     fs_stat w "/a/cfg" = inl ia -> os.Size ia <> 0%Z ->
     fs_stat w "/b/cfg" = inl ib -> os.Size ib <> 0%Z ->
     kube.ResolveConfig "/a/cfg" w
     = (Returned ("/a/cfg", None), [EvStat "/a/cfg"])).
Proof.
  split; [|split].
  - intros explicit Hne.
    pose proof (resolveCandidate_explicit explicit w Hne) as Hc.
    assert (kube.ResolveConfig explicit w = checkCandidate explicit w) as Hr.
    { destruct (checkCandidate explicit w) as [o t] eqn:Hk.
      now rewrite (ResolveConfig_run _ _ _ _ _ _ Hc Hk). }
    repeat split; [exact Hc|exact Hr|].
    unfold trace. rewrite Hr.
    eapply Forall_impl; [apply checkCandidate_trace|]. simpl. tauto.
  - intros v Henv Hne.
    pose proof (resolveCandidate_env w v Henv Hne) as Hc.
    assert (kube.ResolveConfig "" w
            = (result (checkCandidate v) w,
               EvGetenv "KUBECONFIG" :: trace (checkCandidate v) w)) as Hr.
    { unfold result, trace. destruct (checkCandidate v w) as [o t] eqn:Hk.
      now rewrite (ResolveConfig_run _ _ _ _ _ _ Hc Hk). }
    repeat split; [exact Hc|exact Hr|].
    unfold trace at 1. rewrite Hr. simpl. constructor; [reflexivity|].
    eapply Forall_impl; [apply checkCandidate_trace|]. simpl. tauto.
  - intros ia ib _ Ha Hsize _ _.
    assert (result (os_Stat "/a/cfg") w = Returned (inl ia)) as Hstat.
    { unfold result. run. now rewrite Ha. }
    apply (ResolveConfig_run "/a/cfg" w "/a/cfg" [] _ [EvStat "/a/cfg"]).
    + now apply resolveCandidate_explicit.
    + eauto using checkCandidate_config_file.
Qed.

(** C3. With an empty explicit path and KUBECONFIG unset or empty, the
    default [<home>/.kube/config] is the candidate whenever the current
    user is known: the guarding stat is made on the empty path and fails,
    so the guard passes. *)
Theorem ResolveConfig_home_default (w : World) (usr : user.User) :
  environ w !! "KUBECONFIG" = None \/ environ w !! "KUBECONFIG" = Some "" ->
  current_user w = inl usr ->
  os_Stat "" w = (Returned (inr (PathError "stat" "" ENOENT)), [EvStat ""]) /\
  resolveCandidate "" w
  = (Returned (user.HomeDir usr +:+ "/.kube/config"),
     [EvGetenv "KUBECONFIG"; EvUserCurrent; EvStat ""]) /\
  kube.ResolveConfig "" w
  = (result (checkCandidate (user.HomeDir usr +:+ "/.kube/config")) w,
     [EvGetenv "KUBECONFIG"; EvUserCurrent; EvStat ""]
     ++ trace (checkCandidate (user.HomeDir usr +:+ "/.kube/config")) w).
Proof.
  intros Henv Husr.
  pose proof (resolveCandidate_home w usr Henv Husr) as Hc.
  repeat split; [exact Hc|].
  unfold result, trace.
  destruct (checkCandidate _ w) as [o t] eqn:Hk.
  exact (ResolveConfig_run _ _ _ _ _ _ Hc Hk).
Qed.

(** C4. Whatever the origin of the candidate, when it denotes an existing
    file of size zero the answer is the empty path and no error, and one
    informational log line is emitted. *)
Theorem ResolveConfig_empty_file (w : World) (kubeconfig c : string)
    (t : list Event) (info : os.FileInfo) :
  resolveCandidate kubeconfig w = (Returned c, t) ->
  result (os_Stat c) w = Returned (inl info) ->
  os.Size info = 0%Z ->
  kube.ResolveConfig kubeconfig w
  = (Returned ("", None),
     t ++ [EvStat c; EvLogInfo "using in-cluster configuration"]) /\
  List.filter is_LogInfo (trace (kube.ResolveConfig kubeconfig) w)
  = [EvLogInfo "using in-cluster configuration"].
Proof.
  intros Hc Hstat Hsize.
  pose proof (checkCandidate_empty_file c w info Hstat Hsize) as Hk.
  pose proof (ResolveConfig_run _ _ _ _ _ _ Hc Hk) as Hr.
  split; [exact Hr|].
  unfold trace. rewrite Hr. simpl. rewrite List.filter_app. simpl.
  destruct (resolveCandidate_returns kubeconfig w) as (c' & t' & Hc' & Hlog).
  rewrite Hc in Hc'. injection Hc' as _ <-. now rewrite Hlog.
Qed.

(** C5. A non-empty candidate whose stat reports non-existence is answered
    by the error "kubernetes configuration file <path> does not exist" on
    that very path; a non-empty candidate whose stat fails otherwise is
    answered by a multierror holding the cause and an error that carries
    the path. *)
Theorem ResolveConfig_stat_failure (w : World) (kubeconfig c : string)
    (t : list Event) (cause : error) :
  resolveCandidate kubeconfig w = (Returned c, t) ->
  c <> "" ->
  result (os_Stat c) w = Returned (inr cause) ->
  (os.IsNotExist cause = true ->
   kube.ResolveConfig kubeconfig w
   = (Returned
        ("", Some (Errorf "kubernetes configuration file %q does not exist"
                     [c])),
      t ++ [EvStat c])) /\
  (os.IsNotExist cause = false ->
   kube.ResolveConfig kubeconfig w
   = (Returned
        ("", Some (MultiError
                     [cause; Errorf "kubernetes configuration file %q" [c]])),
      t ++ [EvStat c])).
Proof.
  intros Hc Hne Hstat. split; intros Hkind.
  - eauto using ResolveConfig_run, checkCandidate_missing.
  - eauto using ResolveConfig_run, checkCandidate_inaccessible.
Qed.

(** C7. With an empty explicit path, KUBECONFIG unset or empty and no
    current user, the call returns the empty path and no error. *)
Theorem ResolveConfig_no_source (w : World) (err : error) :
  environ w !! "KUBECONFIG" = None \/ environ w !! "KUBECONFIG" = Some "" ->
  current_user w = inr err ->
  kube.ResolveConfig "" w
  = (Returned ("", None), [EvGetenv "KUBECONFIG"; EvUserCurrent]).
Proof.
  intros Henv Husr.
  exact (ResolveConfig_run _ _ _ _ _ _
           (resolveCandidate_no_home w err Henv Husr) (checkCandidate_none w)).
Qed.

(** C8. A candidate that denotes an existing file of non-zero size is
    returned unchanged, with no error. *)
Theorem ResolveConfig_config_file (w : World) (kubeconfig c : string)
    (t : list Event) (info : os.FileInfo) :
  resolveCandidate kubeconfig w = (Returned c, t) ->
  result (os_Stat c) w = Returned (inl info) ->
  os.Size info <> 0%Z ->
  kube.ResolveConfig kubeconfig w = (Returned (c, None), t ++ [EvStat c]).
Proof. eauto using ResolveConfig_run, checkCandidate_config_file. Qed.

(** C10. Every call returns; a non-nil error comes with the empty path,
    and a non-empty path comes with a nil error. *)
Theorem ResolveConfig_error_xor_path (w : World) (kubeconfig : string) :
  exists path err t,
    kube.ResolveConfig kubeconfig w = (Returned (path, err), t) /\
    (err <> None -> path = "") /\
    (path <> "" -> err = None).
Proof.
  destruct (ResolveConfig_answers kubeconfig w)
    as (path & err & t & Hr & [->| ->] & _).
  - exists path, None, t. repeat split; congruence.
  - exists "", err, t. repeat split; congruence.
Qed.

(** ** createInterface, CreateInterface, CreateInterfaceFromClusterConfig *)

(** The shared construction step on a configuration that is not nil. *)
Lemma createInterface_run cfg w :
  exists r t,
    kube.createInterface (Some cfg) w
    = (Returned r,
       EvNewDefaultClientConfig cfg clientcmd.ConfigOverrides_zero
       :: EvClientConfig
            {| clientcmd.config := cfg;
               clientcmd.contextName := clientcmdapi.CurrentContext cfg;
               clientcmd.overrides := clientcmd.ConfigOverrides_zero |}
       :: t) /\
    both_or_neither r /\
    Forall no_overrides t.
Proof.
  unfold kube.createInterface, both_or_neither. run.
  destruct (client_config w _) as [rc|err]; simpl;
    [destruct (new_for_config w rc) as [client|err]; simpl|];
    do 2 eexists; (split; [reflexivity|]); split; eauto;
    repeat constructor.
Qed.

(** The in-cluster branch of [CreateInterface] (lines 79-90). *)
Lemma in_cluster_branch_run kubeconfig w t :
  kube.ResolveConfig kubeconfig w = (Returned ("", None), t) ->
  kube.CreateInterface kubeconfig w
  = match in_cluster w with
    | inr err1 => (Returned (None, None, Some err1), t ++ [EvInClusterConfig])
    | inl restConfig =>
        (match new_for_config w restConfig with
         | inl client => Returned (Some restConfig, Some client, None)
         | inr err2 => Returned (None, None, Some err2)
         end,
         t ++ [EvInClusterConfig; EvNewForConfig restConfig])
    end.
Proof.
  intros Hr. unfold kube.CreateInterface. unfold bind at 1. rewrite Hr.
  destruct (decide ("" = "")) as [_|]; [|done]. run.
  destruct (in_cluster w) as [rc|err1]; simpl; [|reflexivity].
  now destruct (new_for_config w rc).
Qed.

(** The file branch of [CreateInterface] (lines 91-95). *)
Lemma file_branch_run kubeconfig w path t :
  kube.ResolveConfig kubeconfig w = (Returned (path, None), t) ->
  path <> "" ->
  kube.CreateInterface kubeconfig w
  = match load_from_file w path with
    | inr err => (Returned (None, None, Some err), t ++ [EvLoadFromFile path])
    | inl clusterConfig =>
        (result (kube.createInterface (Some clusterConfig)) w,
         t ++ EvLoadFromFile path
           :: trace (kube.createInterface (Some clusterConfig)) w)
    end.
Proof.
  intros Hr Hne. unfold kube.CreateInterface. unfold bind at 1. rewrite Hr.
  destruct (decide (path = "")) as [|_]; [done|].
  unfold clientcmd_LoadFromFile, result, trace. unfold bind at 1, ask.
  destruct (load_from_file w path) as [cfg|err]; simpl; [|reflexivity].
  now destruct (kube.createInterface (Some cfg) w).
Qed.

(** The failure branch of [CreateInterface] (lines 75-77). *)
Lemma unresolved_branch_run kubeconfig w path err t :
  kube.ResolveConfig kubeconfig w = (Returned (path, Some err), t) ->
  kube.CreateInterface kubeconfig w = (Returned (None, None, Some err), t).
Proof.
  intros Hr. unfold kube.CreateInterface. unfold bind at 1. rewrite Hr.
  simpl. now rewrite app_nil_r.
Qed.

(** Every call of [CreateInterface] returns both values or neither, and
    applies no overrides. *)
Lemma CreateInterface_answers kubeconfig w :
  exists r t,
    kube.CreateInterface kubeconfig w = (Returned r, t) /\
    both_or_neither r /\ Forall no_overrides t.
Proof.
  destruct (ResolveConfig_answers kubeconfig w)
    as (path & err & t & Hr & Hxor & _ & Hover).
  destruct err as [err|].
  - rewrite (unresolved_branch_run _ _ _ _ _ Hr).
    do 2 eexists; (split; [reflexivity|]); split; [right; eauto|done].
  - destruct (decide (path = "")) as [->|Hne].
    + rewrite (in_cluster_branch_run _ _ _ Hr).
      destruct (in_cluster w) as [rc|err1];
        [destruct (new_for_config w rc) as [client|err2]|];
        do 2 eexists; (split; [reflexivity|]);
        (split; [unfold both_or_neither; eauto|]);
        apply Forall_app; split; auto; repeat constructor.
    + rewrite (file_branch_run _ _ _ _ Hr Hne).
      destruct (load_from_file w path) as [cfg|err].
      * unfold result, trace.
        destruct (createInterface_run cfg w) as (r & t' & -> & Hr' & Hover').
        do 2 eexists; (split; [reflexivity|]); split; [exact Hr'|].
        apply Forall_app; split; auto. repeat constructor; auto.
      * do 2 eexists; (split; [reflexivity|]); split; [right; eauto|].
        apply Forall_app; split; auto; repeat constructor.
Qed.

(** C2, as amended.  [CreateInterface] on every path, and
    [CreateInterfaceFromClusterConfig] on every configuration that is not
    nil, return a rest config and a client with a nil error, or neither of
    them with a non-nil error; and no call of
    [CreateInterfaceFromClusterConfig], whatever its argument, returns
    exactly one of the two values. *)
Theorem construction_both_or_neither (w : World) :
  (forall kubeconfig, exists r,
     result (kube.CreateInterface kubeconfig) w = Returned r /\
     both_or_neither r) /\
  (forall clusterConfig, exists r,
     result (kube.CreateInterfaceFromClusterConfig (Some clusterConfig)) w
     = Returned r /\
     both_or_neither r) /\
  (forall clusterConfig r,
     result (kube.CreateInterfaceFromClusterConfig clusterConfig) w
     = Returned r ->
     both_or_neither r).
Proof.
  assert (forall cfg, exists r,
            result (kube.CreateInterfaceFromClusterConfig (Some cfg)) w
            = Returned r /\ both_or_neither r) as Hsome.
  { intros cfg. unfold kube.CreateInterfaceFromClusterConfig.
    destruct (createInterface_run cfg w) as (r & t & Hr & Hbn & _).
    exists r. unfold result. now rewrite Hr. }
  split; [|split].
  - intros kubeconfig.
    destruct (CreateInterface_answers kubeconfig w) as (r & t & Hr & Hbn & _).
    exists r. unfold result. now rewrite Hr.
  - exact Hsome.
  - intros [cfg|] r Hr; [|discriminate Hr].
    destruct (Hsome cfg) as (r' & Hr' & Hbn). congruence.
Qed.

Example CreateInterfaceFromClusterConfig_nil :
  kube.CreateInterfaceFromClusterConfig None headless
  = (Panicked "invalid memory address or nil pointer dereference", []).
Proof. reflexivity. Qed.

(** C2, as stated, fails: on a nil configuration
    [CreateInterfaceFromClusterConfig] dereferences the pointer and panics,
    so it returns neither of the two admitted shapes. *)
Lemma CreateInterfaceFromClusterConfig_nil_panics :
  ~ (exists r,
       result (kube.CreateInterfaceFromClusterConfig None) headless
       = Returned r /\
       both_or_neither r).
Proof. intros (r & Hr & _). discriminate Hr. Qed.

(** C6. When resolution yields the empty path, the rest config is built
    from the in-cluster identity; when that fails, its error is returned at
    once, and nothing file-based is tried in either case. *)
Theorem CreateInterface_in_cluster (w : World) (kubeconfig : string)
    (t : list Event) :
  kube.ResolveConfig kubeconfig w = (Returned ("", None), t) ->
  (forall err1, in_cluster w = inr err1 ->
     kube.CreateInterface kubeconfig w
     = (Returned (None, None, Some err1), t ++ [EvInClusterConfig])) /\
  (forall restConfig, in_cluster w = inl restConfig ->
     kube.CreateInterface kubeconfig w
     = (match new_for_config w restConfig with
        | inl client => Returned (Some restConfig, Some client, None)
        | inr err2 => Returned (None, None, Some err2)
        end,
        t ++ [EvInClusterConfig; EvNewForConfig restConfig])) /\
  Forall (fun e => is_file_based e = false)
    (trace (kube.CreateInterface kubeconfig) w).
Proof.
  intros Hr. pose proof (in_cluster_branch_run _ _ _ Hr) as Hrun.
  repeat split.
  - intros err1 Hin. now rewrite Hrun, Hin.
  - intros rc Hin. now rewrite Hrun, Hin.
  - destruct (ResolveConfig_answers kubeconfig w)
      as (path & err & t' & Hr' & _ & Hfile & _).
    rewrite Hr in Hr'. injection Hr' as <- <- <-.
    unfold trace. rewrite Hrun.
    destruct (in_cluster w); simpl; apply Forall_app; split; auto;
      repeat constructor.
Qed.

(** C9. The only override policy ever handed to client-go is the empty
    one: in every run of [CreateInterface] and of
    [CreateInterfaceFromClusterConfig]; and the client config is indeed
    derived with it, from every configuration passed in memory and from
    every configuration loaded from the resolved path. *)
Theorem construction_without_overrides (w : World) :
  (forall kubeconfig,
     Forall no_overrides (trace (kube.CreateInterface kubeconfig) w)) /\
  (forall clusterConfig,
     Forall no_overrides
       (trace (kube.CreateInterfaceFromClusterConfig clusterConfig) w)) /\
  (forall cfg, exists t,
     trace (kube.CreateInterfaceFromClusterConfig (Some cfg)) w
     = EvNewDefaultClientConfig cfg clientcmd.ConfigOverrides_zero
       :: EvClientConfig
            {| clientcmd.config := cfg;
               clientcmd.contextName := clientcmdapi.CurrentContext cfg;
               clientcmd.overrides := clientcmd.ConfigOverrides_zero |}
       :: t) /\
  (forall kubeconfig path t cfg,
     kube.ResolveConfig kubeconfig w = (Returned (path, None), t) ->
     path <> "" ->
     load_from_file w path = inl cfg ->
     exists t',
       trace (kube.CreateInterface kubeconfig) w
       = t ++ EvLoadFromFile path
           :: EvNewDefaultClientConfig cfg clientcmd.ConfigOverrides_zero
           :: EvClientConfig
                {| clientcmd.config := cfg;
                   clientcmd.contextName := clientcmdapi.CurrentContext cfg;
                   clientcmd.overrides := clientcmd.ConfigOverrides_zero |}
           :: t').
Proof.
  repeat split.
  - intros kubeconfig.
    destruct (CreateInterface_answers kubeconfig w) as (r & t & Hr & _ & Ht).
    unfold trace. now rewrite Hr.
  - intros [cfg|]; unfold kube.CreateInterfaceFromClusterConfig.
    + destruct (createInterface_run cfg w) as (r & t & Hr & _ & Ht).
      unfold trace. rewrite Hr. repeat constructor; auto.
    + constructor.
  - intros cfg. unfold kube.CreateInterfaceFromClusterConfig.
    destruct (createInterface_run cfg w) as (r & t & Hr & _ & _).
    exists t. unfold trace. now rewrite Hr.
  - intros kubeconfig path t cfg Hr Hne Hload.
    destruct (createInterface_run cfg w) as (r & t' & Hrun & _ & _).
    exists t'. unfold trace at 1.
    rewrite (file_branch_run _ _ _ _ Hr Hne), Hload.
    unfold trace. now rewrite Hrun.
Qed.

(** * The theorems at concrete inputs *)

Lemma ResolveConfig_priority_witness :
  ("/a/cfg" <> "" /\
   environ laptop_with_env !! "KUBECONFIG" = Some "/b/cfg" /\
   "/b/cfg" <> "" /\
   fs_stat laptop_with_env "/a/cfg" = inl (file "cfg" 120) /\
   fs_stat laptop_with_env "/b/cfg" = inl (file "cfg" 64)) /\
  (resolveCandidate "/a/cfg" laptop_with_env = (Returned "/a/cfg", []) /\
   Forall (fun e => is_Getenv e = false /\ is_UserCurrent e = false)
     (trace (kube.ResolveConfig "/a/cfg") laptop_with_env)) /\
  (resolveCandidate "" laptop_with_env
   = (Returned "/b/cfg", [EvGetenv "KUBECONFIG"]) /\
   Forall (fun e => is_UserCurrent e = false)
     (trace (kube.ResolveConfig "") laptop_with_env)) /\
  kube.ResolveConfig "/a/cfg" laptop_with_env
  = (Returned ("/a/cfg", None), [EvStat "/a/cfg"]).
Proof.
  destruct (ResolveConfig_priority laptop_with_env) as (Hexp & Henv & Hboth).
  split; [repeat split; done|].
  split; [|split].
  - destruct (Hexp "/a/cfg") as (Hc & _ & Ht); [done|]. now split.
  - destruct (Henv "/b/cfg") as (Hc & _ & Ht); [reflexivity|done|]. now split.
  - apply (Hboth (file "cfg" 120) (file "cfg" 64)); done.
Defined.

Lemma ResolveConfig_home_default_witness :
  (environ laptop_of_alice !! "KUBECONFIG" = None /\
   current_user laptop_of_alice = inl alice) /\
  resolveCandidate "" laptop_of_alice
  = (Returned "/home/alice/.kube/config",
     [EvGetenv "KUBECONFIG"; EvUserCurrent; EvStat ""]).
Proof.
  split; [split; reflexivity|].
  apply (ResolveConfig_home_default laptop_of_alice alice);
    [left|]; reflexivity.
Defined.

Lemma ResolveConfig_empty_file_witness :
  (resolveCandidate "/empty" headless = (Returned "/empty", []) /\
   result (os_Stat "/empty") headless = Returned (inl (file "empty" 0)) /\
   os.Size (file "empty" 0) = 0%Z) /\
  kube.ResolveConfig "/empty" headless
  = (Returned ("", None),
     [EvStat "/empty"; EvLogInfo "using in-cluster configuration"]) /\
  kube.ResolveConfig "" laptop_with_empty_env_file
  = (Returned ("", None),
     [EvGetenv "KUBECONFIG"; EvStat "/empty";
      EvLogInfo "using in-cluster configuration"]) /\
  kube.ResolveConfig "" laptop_of_bob
  = (Returned ("", None),
     [EvGetenv "KUBECONFIG"; EvUserCurrent; EvStat "";
      EvStat "/home/bob/.kube/config";
      EvLogInfo "using in-cluster configuration"]).
Proof.
  split; [repeat split; reflexivity|].
  split; [|split].
  - apply (ResolveConfig_empty_file headless "/empty" "/empty" []
             (file "empty" 0)); reflexivity.
  - apply (ResolveConfig_empty_file laptop_with_empty_env_file "" "/empty"
             [EvGetenv "KUBECONFIG"] (file "empty" 0)); reflexivity.
  - apply (ResolveConfig_empty_file laptop_of_bob ""
             "/home/bob/.kube/config"
             [EvGetenv "KUBECONFIG"; EvUserCurrent; EvStat ""]
             (file "config" 0)); reflexivity.
Defined.

Lemma ResolveConfig_stat_failure_witness :
  (resolveCandidate "/nope" headless = (Returned "/nope", []) /\
   "/nope" <> "" /\
   result (os_Stat "/nope") headless
   = Returned (inr (PathError "stat" "/nope" ENOENT)) /\
   result (os_Stat "/secret/cfg") headless
   = Returned (inr (PathError "stat" "/secret/cfg" EACCES))) /\
  kube.ResolveConfig "/nope" headless
  = (Returned
       ("", Some (Errorf "kubernetes configuration file %q does not exist"
                    ["/nope"])),
     [EvStat "/nope"]) /\
  kube.ResolveConfig "/secret/cfg" headless
  = (Returned
       ("", Some (MultiError
                    [PathError "stat" "/secret/cfg" EACCES;
                     Errorf "kubernetes configuration file %q"
                       ["/secret/cfg"]])),
     [EvStat "/secret/cfg"]).
Proof.
  split; [repeat split; done|]. split.
  - apply (ResolveConfig_stat_failure headless "/nope" "/nope" []
             (PathError "stat" "/nope" ENOENT)); done.
  - apply (ResolveConfig_stat_failure headless "/secret/cfg" "/secret/cfg" []
             (PathError "stat" "/secret/cfg" EACCES)); done.
Defined.

Lemma ResolveConfig_no_source_witness :
  (environ headless !! "KUBECONFIG" = None /\ current_user headless = no_user)
  /\ kube.ResolveConfig "" headless
     = (Returned ("", None), [EvGetenv "KUBECONFIG"; EvUserCurrent]).
Proof.
  split; [split; reflexivity|].
  apply (ResolveConfig_no_source headless
           (LibraryError "user: Current not implemented"));
    [left|]; reflexivity.
Defined.

Lemma ResolveConfig_config_file_witness :
  (resolveCandidate "" laptop_with_env
   = (Returned "/b/cfg", [EvGetenv "KUBECONFIG"]) /\
   result (os_Stat "/b/cfg") laptop_with_env = Returned (inl (file "cfg" 64)) /\
   os.Size (file "cfg" 64) <> 0%Z) /\
  kube.ResolveConfig "" laptop_with_env
  = (Returned ("/b/cfg", None), [EvGetenv "KUBECONFIG"; EvStat "/b/cfg"]).
Proof.
  split; [repeat split; done|].
  apply (ResolveConfig_config_file laptop_with_env "" "/b/cfg"
           [EvGetenv "KUBECONFIG"] (file "cfg" 64)); done.
Defined.

Lemma CreateInterface_in_cluster_witness :
  (kube.ResolveConfig "" pod
   = (Returned ("", None), [EvGetenv "KUBECONFIG"; EvUserCurrent]) /\
   in_cluster pod = inl cluster_rest /\
   kube.ResolveConfig "/empty" headless
   = (Returned ("", None),
      [EvStat "/empty"; EvLogInfo "using in-cluster configuration"]) /\
   in_cluster headless
   = inr (LibraryError "unable to load in-cluster configuration")) /\
  kube.CreateInterface "" pod
  = (Returned
       (Some cluster_rest,
        Some {| kubernetes.clientsetConfig := cluster_rest |}, None),
     [EvGetenv "KUBECONFIG"; EvUserCurrent; EvInClusterConfig;
      EvNewForConfig cluster_rest]) /\
  kube.CreateInterface "/empty" headless
  = (Returned
       (None, None,
        Some (LibraryError "unable to load in-cluster configuration")),
     [EvStat "/empty"; EvLogInfo "using in-cluster configuration";
      EvInClusterConfig]).
Proof.
  split; [repeat split; reflexivity|]. split.
  - destruct (CreateInterface_in_cluster pod ""
                [EvGetenv "KUBECONFIG"; EvUserCurrent]) as (_ & Hin & _);
      [reflexivity|].
    apply (Hin cluster_rest). reflexivity.
  - destruct (CreateInterface_in_cluster headless "/empty"
                [EvStat "/empty"; EvLogInfo "using in-cluster configuration"])
      as (Hfail & _ & _); [reflexivity|].
    apply (Hfail (LibraryError "unable to load in-cluster configuration")).
    reflexivity.
Defined.

Lemma construction_without_overrides_witness :
  (kube.ResolveConfig "/a/cfg" headless
   = (Returned ("/a/cfg", None), [EvStat "/a/cfg"]) /\
   "/a/cfg" <> "" /\
   load_from_file headless "/a/cfg" = inl sample_config) /\
  exists t',
    trace (kube.CreateInterface "/a/cfg") headless
    = [EvStat "/a/cfg"] ++ EvLoadFromFile "/a/cfg"
        :: EvNewDefaultClientConfig sample_config
             clientcmd.ConfigOverrides_zero
        :: EvClientConfig
             {| clientcmd.config := sample_config;
                clientcmd.contextName := "ctx";
                clientcmd.overrides := clientcmd.ConfigOverrides_zero |}
        :: t'.
Proof.
  split; [repeat split; done|].
  destruct (construction_without_overrides headless) as (_ & _ & _ & Hfile).
  apply (Hfile "/a/cfg" "/a/cfg" [EvStat "/a/cfg"] sample_config); done.
Defined.

Lemma construction_both_or_neither_witness :
  result (kube.CreateInterfaceFromClusterConfig (Some sample_config)) headless
  = Returned
      (Some {| rest.Host := "https://k8s.example:6443";
               rest.BearerToken := "secret"; rest.CAFile := "" |},
       Some {| kubernetes.clientsetConfig :=
                 {| rest.Host := "https://k8s.example:6443";
                    rest.BearerToken := "secret"; rest.CAFile := "" |} |},
       None) /\
  both_or_neither
    (Some {| rest.Host := "https://k8s.example:6443";
             rest.BearerToken := "secret"; rest.CAFile := "" |},
     Some {| kubernetes.clientsetConfig :=
               {| rest.Host := "https://k8s.example:6443";
                  rest.BearerToken := "secret"; rest.CAFile := "" |} |},
     None).
Proof.
  split; [reflexivity|].
  destruct (construction_both_or_neither headless) as (_ & _ & Hany).
  apply (Hany (Some sample_config)). reflexivity.
Defined.

Lemma ResolveConfig_error_xor_path_witness :
  exists path err t,
    kube.ResolveConfig "/nope" headless = (Returned (path, err), t) /\
    (err <> None -> path = "") /\
    (path <> "" -> err = None).
Proof. exact (ResolveConfig_error_xor_path headless "/nope"). Defined.

(** * Further properties of the package *)

(** ** The two halves of [ResolveConfig], evaluated *)

Lemma resolveCandidate_eval kubeconfig w :
  resolveCandidate kubeconfig w
  = if decide (kubeconfig = "") then
      if decide (KUBECONFIG_value w = "") then
        match current_user w with
        | inl usr =>
            (Returned (user.HomeDir usr +:+ "/.kube/config"),
             [EvGetenv "KUBECONFIG"; EvUserCurrent; EvStat ""])
        | inr _ => (Returned "", [EvGetenv "KUBECONFIG"; EvUserCurrent])
        end
      else (Returned (KUBECONFIG_value w), [EvGetenv "KUBECONFIG"])
    else (Returned kubeconfig, []).
Proof.
  destruct (decide (kubeconfig = "")) as [->|Hne];
    [|now apply resolveCandidate_explicit].
  unfold KUBECONFIG_value.
  destruct (environ w !! "KUBECONFIG") as [v|] eqn:Henv; simpl.
  - destruct (decide (v = "")) as [->|Hv].
    + destruct (current_user w) as [usr|err] eqn:Husr.
      * apply resolveCandidate_home; auto.
      * eapply resolveCandidate_no_home; eauto.
    + now apply resolveCandidate_env.
  - destruct (current_user w) as [usr|err] eqn:Husr.
    + apply resolveCandidate_home; auto.
    + eapply resolveCandidate_no_home; eauto.
Qed.

Lemma checkCandidate_eval c w :
  c <> "" ->
  checkCandidate c w
  = match fs_stat w c with
    | inl info =>
        if decide (os.Size info = 0%Z) then
          (Returned ("", None),
           [EvStat c; EvLogInfo "using in-cluster configuration"])
        else (Returned (c, None), [EvStat c])
    | inr ENOENT =>
        (Returned
           ("", Some (Errorf "kubernetes configuration file %q does not exist"
                        [c])),
         [EvStat c])
    | inr errno =>
        (Returned
           ("", Some (MultiError
                        [PathError "stat" c errno;
                         Errorf "kubernetes configuration file %q" [c]])),
         [EvStat c])
    end.
Proof.
  intros Hc.
  assert (result (os_Stat c) w
          = Returned match fs_stat w c with
                     | inl info => inl info
                     | inr errno => inr (PathError "stat" c errno)
                     end) as Hstat.
  { unfold result. run. now destruct (decide (c = "")). }
  destruct (fs_stat w c) as [info|errno].
  - destruct (decide (os.Size info = 0%Z)).
    + eauto using checkCandidate_empty_file.
    + eauto using checkCandidate_config_file.
  - destruct errno;
      first [ now apply (checkCandidate_missing c w _ Hc Hstat)
            | now apply (checkCandidate_inaccessible c w _ Hc Hstat) ].
Qed.

(** The candidate of a call: always defined, since the choice returns. *)
Lemma resolveCandidate_total kubeconfig w :
  exists c t, resolveCandidate kubeconfig w = (Returned c, t).
Proof.
  destruct (resolveCandidate_returns kubeconfig w) as (c & t & Hc & _). eauto.
Qed.

Lemma ResolveConfig_by_candidate kubeconfig w c t :
  resolveCandidate kubeconfig w = (Returned c, t) ->
  kube.ResolveConfig kubeconfig w
  = (result (checkCandidate c) w, t ++ trace (checkCandidate c) w).
Proof.
  intros Hc. unfold result, trace.
  destruct (checkCandidate c w) as [o t'] eqn:Hk.
  exact (ResolveConfig_run _ _ _ _ _ _ Hc Hk).
Qed.

Lemma default_path_nonempty home : home +:+ "/.kube/config" <> "".
Proof. now destruct home. Qed.

Lemma ResolveConfig_inv kubeconfig w path err t :
  kube.ResolveConfig kubeconfig w = (Returned (path, err), t) ->
  exists c t0 t1,
    resolveCandidate kubeconfig w = (Returned c, t0) /\
    checkCandidate c w = (Returned (path, err), t1) /\
    t = t0 ++ t1.
Proof.
  intros Hr. destruct (resolveCandidate_total kubeconfig w) as (c & t0 & Hc).
  rewrite (ResolveConfig_by_candidate _ _ _ _ Hc) in Hr.
  unfold result, trace in Hr. destruct (checkCandidate c w) as [o t1] eqn:Hk.
  simpl in Hr. injection Hr as -> <-. exists c, t0, t1. auto.
Qed.

(** What a returned non-empty path tells about the candidate. *)
Lemma checkCandidate_path_inv c w path err t :
  checkCandidate c w = (Returned (path, err), t) -> path <> "" ->
  path = c /\ err = None /\ t = [EvStat c] /\
  exists info, fs_stat w c = inl info /\ os.Size info <> 0%Z.
Proof.
  intros Hk Hp. destruct (decide (c = "")) as [->|Hc].
  { rewrite checkCandidate_none in Hk. congruence. }
  rewrite (checkCandidate_eval c w Hc) in Hk.
  destruct (fs_stat w c) as [info|errno].
  - destruct (decide (os.Size info = 0%Z)); injection Hk as <- <- <-;
      [done|eauto 6].
  - destruct errno; injection Hk as <- <- <-; done.
Qed.

(** What a returned error tells about the candidate. *)
Lemma checkCandidate_error_inv c w path err t :
  checkCandidate c w = (Returned (path, Some err), t) ->
  c <> "" /\ path = "" /\ t = [EvStat c] /\
  ((fs_stat w c = inr ENOENT /\
    err = Errorf "kubernetes configuration file %q does not exist" [c]) \/
   (exists errno,
      fs_stat w c = inr errno /\ errno <> ENOENT /\
      err = MultiError [PathError "stat" c errno;
                        Errorf "kubernetes configuration file %q" [c]])).
Proof.
  intros Hk. destruct (decide (c = "")) as [->|Hc].
  { rewrite checkCandidate_none in Hk. congruence. }
  rewrite (checkCandidate_eval c w Hc) in Hk.
  destruct (fs_stat w c) as [info|errno].
  - destruct (decide (os.Size info = 0%Z)); discriminate Hk.
  - destruct errno; injection Hk as <- <- <-;
      (split; [done|]); (split; [done|]); (split; [done|]);
      first [ left; split; reflexivity
            | right; eexists; split; [reflexivity|]; split; done ].
Qed.

(** The examination of a candidate reads the file system at that path
    only. *)
Lemma checkCandidate_frame c w1 w2 :
  fs_stat w1 c = fs_stat w2 c -> checkCandidate c w1 = checkCandidate c w2.
Proof.
  intros Hfs. destruct (decide (c = "")) as [->|Hc]; [reflexivity|].
  now rewrite !checkCandidate_eval, Hfs by done.
Qed.

Lemma resolveCandidate_trace kubeconfig w c t :
  resolveCandidate kubeconfig w = (Returned c, t) ->
  Forall (fun e => is_client_go e = false) t.
Proof.
  rewrite resolveCandidate_eval. intros Hc.
  repeat case_decide; try destruct (current_user w);
    injection Hc as <- <-; repeat constructor.
Qed.

Lemma ResolveConfig_trace kubeconfig w :
  Forall (fun e => is_client_go e = false)
    (trace (kube.ResolveConfig kubeconfig) w).
Proof.
  destruct (resolveCandidate_total kubeconfig w) as (c & t0 & Hc).
  unfold trace at 1. rewrite (ResolveConfig_by_candidate _ _ _ _ Hc). simpl.
  apply Forall_app. split; [eauto using resolveCandidate_trace|].
  unfold trace.
  destruct (checkCandidate_cases c w) as [H|[H|[H|[err H]]]];
    rewrite H; repeat constructor.
Qed.

(** ** ResolveConfig: what an answer tells *)

(** X1. A non-empty path returned by [ResolveConfig] is the candidate
    itself, comes with a nil error, and was found by stat as a file whose
    size is not zero; that stat is the last event of the run. *)
Theorem ResolveConfig_path_was_found (w : World) (kubeconfig path : string)
    (err : option error) (t : list Event) :
  kube.ResolveConfig kubeconfig w = (Returned (path, err), t) ->
  path <> "" ->
  err = None /\
  (exists t0, resolveCandidate kubeconfig w = (Returned path, t0) /\
              t = t0 ++ [EvStat path]) /\
  (exists info, fs_stat w path = inl info /\ os.Size info <> 0%Z).
Proof.
  intros Hr Hp.
  destruct (ResolveConfig_inv _ _ _ _ _ Hr) as (c & t0 & t1 & Hc & Hk & ->).
  destruct (checkCandidate_path_inv _ _ _ _ _ Hk Hp) as (-> & -> & -> & Hinfo).
  eauto.
Qed.

(** X2. A non-empty path returned by [ResolveConfig] is the explicit
    argument, or else the value of KUBECONFIG, or else
    [<home>/.kube/config] of the current user, in this order. *)
Theorem ResolveConfig_path_origin (w : World) (kubeconfig path : string)
    (err : option error) (t : list Event) :
  kube.ResolveConfig kubeconfig w = (Returned (path, err), t) ->
  path <> "" ->
  (kubeconfig <> "" /\ path = kubeconfig) \/
  (kubeconfig = "" /\ environ w !! "KUBECONFIG" = Some path) \/
  (kubeconfig = "" /\ KUBECONFIG_value w = "" /\
   exists usr, current_user w = inl usr /\
               path = user.HomeDir usr +:+ "/.kube/config").
Proof.
  intros Hr Hp.
  destruct (ResolveConfig_inv _ _ _ _ _ Hr) as (c & t0 & t1 & Hc & Hk & ->).
  destruct (checkCandidate_path_inv _ _ _ _ _ Hk Hp) as (-> & _).
  rewrite resolveCandidate_eval in Hc.
  destruct (decide (kubeconfig = "")) as [->|Hne].
  - right. destruct (decide (KUBECONFIG_value w = "")) as [Hv|Hv].
    + right. destruct (current_user w) as [usr|e].
      * injection Hc as <- _. eauto.
      * injection Hc as <- _. done.
    + left. injection Hc as Hc _. unfold KUBECONFIG_value in *.
      destruct (environ w !! "KUBECONFIG") as [v|]; simpl in *;
        [now subst|done].
  - left. injection Hc as <- _. done.
Qed.

(** X3. An error returned by [ResolveConfig] comes with the empty path and
    stems from the stat of a non-empty candidate: it is the "does not
    exist" error on that candidate exactly when the stat reported ENOENT,
    and otherwise the multierror of the stat error and the candidate. *)
Theorem ResolveConfig_error_origin (w : World) (kubeconfig path : string)
    (err : error) (t : list Event) :
  kube.ResolveConfig kubeconfig w = (Returned (path, Some err), t) ->
  exists c t0,
    resolveCandidate kubeconfig w = (Returned c, t0) /\
    c <> "" /\ path = "" /\ t = t0 ++ [EvStat c] /\
    ((fs_stat w c = inr ENOENT /\
      err = Errorf "kubernetes configuration file %q does not exist" [c]) \/
     (exists errno,
        fs_stat w c = inr errno /\ errno <> ENOENT /\
        err = MultiError [PathError "stat" c errno;
                          Errorf "kubernetes configuration file %q" [c]])).
Proof.
  intros Hr.
  destruct (ResolveConfig_inv _ _ _ _ _ Hr) as (c & t0 & t1 & Hc & Hk & ->).
  destruct (checkCandidate_error_inv _ _ _ _ _ Hk) as (Hne & -> & -> & Hkind).
  eauto 8.
Qed.

(** X4. [ResolveConfig] logs nothing but "using in-cluster configuration",
    and only in a run that found the candidate as a zero-byte file and
    answers the empty path with no error. *)
Theorem ResolveConfig_log_means_empty_file (w : World) (kubeconfig : string)
    (e : Event) :
  In e (trace (kube.ResolveConfig kubeconfig) w) ->
  is_LogInfo e = true ->
  e = EvLogInfo "using in-cluster configuration" /\
  result (kube.ResolveConfig kubeconfig) w = Returned ("", None) /\
  exists c t0 info,
    resolveCandidate kubeconfig w = (Returned c, t0) /\
    fs_stat w c = inl info /\ os.Size info = 0%Z.
Proof.
  intros Hin Hlog.
  destruct (resolveCandidate_returns kubeconfig w) as (c & t0 & Hc & Hnolog).
  unfold result, trace in *.
  rewrite (ResolveConfig_by_candidate _ _ _ _ Hc) in *. simpl in *.
  apply in_app_or in Hin as [Hin|Hin].
  { assert (In e (List.filter is_LogInfo t0)) as Hf
      by now apply List.filter_In.
    rewrite Hnolog in Hf. destruct Hf. }
  destruct (decide (c = "")) as [->|Hne]; [destruct Hin|].
  unfold result, trace in *. rewrite (checkCandidate_eval c w Hne) in *.
  destruct (fs_stat w c) as [info|errno] eqn:Hfs.
  - destruct (decide (os.Size info = 0%Z)); simpl in Hin.
    + destruct Hin as [<-|[<-|[]]]; [discriminate|]. eauto 8.
    + destruct Hin as [<-|[]]. discriminate.
  - destruct errno; simpl in Hin; destruct Hin as [<-|[]]; discriminate.
Qed.

(** ** ResolveConfig: what an answer depends on *)

(** X5. [ResolveConfig] depends on the environment only through the value
    of KUBECONFIG (unset and empty are the same), on the current user, and
    on the file system at the candidate path alone: two worlds that agree
    on these give the same run. *)
Theorem ResolveConfig_frame (w1 w2 : World) (kubeconfig c : string)
    (t : list Event) :
  KUBECONFIG_value w1 = KUBECONFIG_value w2 ->
  current_user w1 = current_user w2 ->
  resolveCandidate kubeconfig w1 = (Returned c, t) ->
  fs_stat w1 c = fs_stat w2 c ->
  kube.ResolveConfig kubeconfig w1 = kube.ResolveConfig kubeconfig w2.
Proof.
  intros Henv Husr Hc Hfs.
  assert (resolveCandidate kubeconfig w2 = (Returned c, t)) as Hc2.
  { rewrite <- Hc, !resolveCandidate_eval. now rewrite Henv, Husr. }
  rewrite (ResolveConfig_by_candidate _ _ _ _ Hc),
    (ResolveConfig_by_candidate _ _ _ _ Hc2).
  unfold result, trace. now rewrite (checkCandidate_frame c w1 w2 Hfs).
Qed.

(** X6. With a non-empty explicit path, the run depends on nothing but
    the stat of that path: neither on the environment nor on the user. *)
Theorem ResolveConfig_explicit_frame (w1 w2 : World) (kubeconfig : string) :
  kubeconfig <> "" ->
  fs_stat w1 kubeconfig = fs_stat w2 kubeconfig ->
  kube.ResolveConfig kubeconfig w1 = kube.ResolveConfig kubeconfig w2.
Proof.
  intros Hne Hfs.
  rewrite (ResolveConfig_by_candidate _ w1 _ _
             (resolveCandidate_explicit _ w1 Hne)),
    (ResolveConfig_by_candidate _ w2 _ _
       (resolveCandidate_explicit _ w2 Hne)).
  unfold result, trace. now rewrite (checkCandidate_frame _ w1 w2 Hfs).
Qed.

(** X7. A resolved path is stable: resolving the non-empty path that
    [ResolveConfig] returned gives that path again, with one stat and
    without reading the environment or the user. *)
Theorem ResolveConfig_resolved_is_stable (w : World)
    (kubeconfig path : string) (err : option error) (t : list Event) :
  kube.ResolveConfig kubeconfig w = (Returned (path, err), t) ->
  path <> "" ->
  kube.ResolveConfig path w = (Returned (path, None), [EvStat path]).
Proof.
  intros Hr Hp.
  destruct (ResolveConfig_inv _ _ _ _ _ Hr) as (c & t0 & t1 & _ & Hk & _).
  destruct (checkCandidate_path_inv _ _ _ _ _ Hk Hp)
    as (-> & -> & -> & _).
  rewrite (ResolveConfig_by_candidate _ _ _ _
             (resolveCandidate_explicit _ w Hp)).
  unfold result, trace. now rewrite Hk.
Qed.

(** ** CreateInterface: the failure paths *)

(** X8. When resolution fails, [CreateInterface] returns that very error
    with no rest config and no client, and calls nothing of client-go. *)
Theorem CreateInterface_resolution_error (w : World)
    (kubeconfig path : string) (err : error) (t : list Event) :
  kube.ResolveConfig kubeconfig w = (Returned (path, Some err), t) ->
  kube.CreateInterface kubeconfig w = (Returned (None, None, Some err), t) /\
  Forall (fun e => is_client_go e = false)
    (trace (kube.CreateInterface kubeconfig) w).
Proof.
  intros Hr. pose proof (unresolved_branch_run _ _ _ _ _ Hr) as Hrun.
  split; [exact Hrun|].
  pose proof (ResolveConfig_trace kubeconfig w) as Ht.
  unfold trace in *. now rewrite Hrun, Hr in *.
Qed.

(** X9. With no explicit path and KUBECONFIG unset or empty, a known
    current user whose [<home>/.kube/config] is missing makes
    [CreateInterface] fail with the "does not exist" error on that default
    path; the in-cluster identity is never tried. *)
Theorem CreateInterface_missing_default (w : World) (usr : user.User) :
  KUBECONFIG_value w = "" ->
  current_user w = inl usr ->
  fs_stat w (user.HomeDir usr +:+ "/.kube/config") = inr ENOENT ->
  kube.CreateInterface "" w
  = (Returned
       (None, None,
        Some (Errorf "kubernetes configuration file %q does not exist"
                [user.HomeDir usr +:+ "/.kube/config"])),
     [EvGetenv "KUBECONFIG"; EvUserCurrent; EvStat "";
      EvStat (user.HomeDir usr +:+ "/.kube/config")]).
Proof.
  intros Henv Husr Hfs.
  apply (unresolved_branch_run "" w "").
  assert (resolveCandidate "" w
          = (Returned (user.HomeDir usr +:+ "/.kube/config"),
             [EvGetenv "KUBECONFIG"; EvUserCurrent; EvStat ""])) as Hc.
  { rewrite resolveCandidate_eval, Henv, Husr. reflexivity. }
  rewrite (ResolveConfig_by_candidate _ _ _ _ Hc). unfold result, trace.
  rewrite checkCandidate_eval by apply default_path_nonempty.
  now rewrite Hfs.
Qed.

(** X10. When resolution yields a non-empty path, [CreateInterface] is
    [LoadFromFile] on that path followed by
    [CreateInterfaceFromClusterConfig] on the loaded configuration; a
    loading error is returned as it is, before any client config is
    derived. *)
Theorem CreateInterface_from_file (w : World) (kubeconfig path : string)
    (t : list Event) :
  kube.ResolveConfig kubeconfig w = (Returned (path, None), t) ->
  path <> "" ->
  (forall cfg, load_from_file w path = inl cfg ->
     kube.CreateInterface kubeconfig w
     = (result (kube.CreateInterfaceFromClusterConfig (Some cfg)) w,
        t ++ EvLoadFromFile path
          :: trace (kube.CreateInterfaceFromClusterConfig (Some cfg)) w)) /\
  (forall err, load_from_file w path = inr err ->
     kube.CreateInterface kubeconfig w
     = (Returned (None, None, Some err), t ++ [EvLoadFromFile path])).
Proof.
  intros Hr Hne. pose proof (file_branch_run _ _ _ _ Hr Hne) as Hrun.
  split.
  - intros cfg Hload. now rewrite Hrun, Hload.
  - intros err Hload. now rewrite Hrun, Hload.
Qed.

(** ** The construction step, evaluated *)

Lemma createInterface_eval cfg w :
  kube.createInterface (Some cfg) w
  = match client_config w (derived_client_config cfg) with
    | inr err =>
        (Returned (None, None, Some err),
         [EvNewDefaultClientConfig cfg clientcmd.ConfigOverrides_zero;
          EvClientConfig (derived_client_config cfg)])
    | inl restConfig =>
        (match new_for_config w restConfig with
         | inl client => Returned (Some restConfig, Some client, None)
         | inr err => Returned (None, None, Some err)
         end,
         [EvNewDefaultClientConfig cfg clientcmd.ConfigOverrides_zero;
          EvClientConfig (derived_client_config cfg);
          EvNewForConfig restConfig])
    end.
Proof.
  unfold kube.createInterface, derived_client_config. run.
  destruct (client_config w _) as [rc|err]; simpl; [|reflexivity].
  now destruct (new_for_config w rc).
Qed.

Lemma CreateInterface_eval kubeconfig w :
  exists path err t,
    kube.ResolveConfig kubeconfig w = (Returned (path, err), t) /\
    Forall (fun e => is_client_go e = false) t /\
    kube.CreateInterface kubeconfig w
    = match err with
      | Some err => (Returned (None, None, Some err), t)
      | None =>
          if decide (path = "") then
            match in_cluster w with
            | inr err1 =>
                (Returned (None, None, Some err1), t ++ [EvInClusterConfig])
            | inl restConfig =>
                (match new_for_config w restConfig with
                 | inl client => Returned (Some restConfig, Some client, None)
                 | inr err2 => Returned (None, None, Some err2)
                 end,
                 t ++ [EvInClusterConfig; EvNewForConfig restConfig])
            end
          else
            match load_from_file w path with
            | inr err =>
                (Returned (None, None, Some err), t ++ [EvLoadFromFile path])
            | inl cfg =>
                (result (kube.createInterface (Some cfg)) w,
                 t ++ EvLoadFromFile path
                   :: trace (kube.createInterface (Some cfg)) w)
            end
      end.
Proof.
  destruct (ResolveConfig_answers kubeconfig w)
    as (path & err & t & Hr & _).
  exists path, err, t. split; [exact Hr|]. split.
  - pose proof (ResolveConfig_trace kubeconfig w) as Ht.
    unfold trace in Ht. now rewrite Hr in Ht.
  - destruct err as [err|]; [eauto using unresolved_branch_run|].
    destruct (decide (path = "")) as [->|Hne].
    + eauto using in_cluster_branch_run.
    + eauto using file_branch_run.
Qed.

Lemma filter_none {A} (f g : A -> bool) (l : list A) :
  (forall a, f a = true -> g a = true) ->
  Forall (fun a => g a = false) l -> List.filter f l = [].
Proof.
  intros Hfg Hl. induction Hl as [|a l Ha _ IH]; [reflexivity|].
  simpl. rewrite IH. destruct (f a) eqn:Hf; [|reflexivity].
  apply Hfg in Hf. congruence.
Qed.

(** ** CreateInterface and CreateInterfaceFromClusterConfig: success *)

(** X11. [CreateInterfaceFromClusterConfig] succeeds with a rest config
    and a client exactly when the rest config is the one derived from the
    configuration, its current context and the empty overrides, and the
    client is the one built from that rest config. *)
Theorem CreateInterfaceFromClusterConfig_success (w : World)
    (cfg : clientcmdapi.Config) (restConfig : rest.Config)
    (client : kubernetes.Clientset) :
  result (kube.CreateInterfaceFromClusterConfig (Some cfg)) w
  = Returned (Some restConfig, Some client, None)
  <->
  client_config w
    {| clientcmd.config := cfg;
       clientcmd.contextName := clientcmdapi.CurrentContext cfg;
       clientcmd.overrides := clientcmd.ConfigOverrides_zero |}
  = inl restConfig /\
  new_for_config w restConfig = inl client.
Proof.
  unfold kube.CreateInterfaceFromClusterConfig, result.
  rewrite createInterface_eval. unfold derived_client_config.
  destruct (client_config w _) as [rc|err]; simpl.
  - destruct (new_for_config w rc) as [cl|err] eqn:Hnew; split.
    + intros [= -> ->]. auto.
    + intros [[= ->] Hcl]. rewrite Hnew in Hcl. now injection Hcl as ->.
    + discriminate.
    + intros [[= ->] Hcl]. congruence.
  - split; [discriminate|]. intros [[=] _].
Qed.


(** X13. When [CreateInterface] succeeds, the client is built from the
    returned rest config, and that rest config is the in-cluster one if
    resolution gave the empty path, and otherwise the one derived from the
    configuration loaded from the resolved path. *)
Theorem CreateInterface_success (w : World) (kubeconfig : string)
    (restConfig : rest.Config) (client : kubernetes.Clientset) :
  result (kube.CreateInterface kubeconfig) w
  = Returned (Some restConfig, Some client, None) ->
  new_for_config w restConfig = inl client /\
  ((result (kube.ResolveConfig kubeconfig) w = Returned ("", None) /\
    in_cluster w = inl restConfig) \/
   (exists path cfg,
      result (kube.ResolveConfig kubeconfig) w = Returned (path, None) /\
      path <> "" /\
      load_from_file w path = inl cfg /\
      client_config w (derived_client_config cfg) = inl restConfig)).
Proof.
  destruct (CreateInterface_eval kubeconfig w)
    as (path & err & t & Hr & _ & Hrun).
  unfold result. rewrite Hrun, Hr. clear Hrun. simpl.
  destruct err as [err|]; [discriminate|].
  destruct (decide (path = "")) as [->|Hne].
  - destruct (in_cluster w) as [rc|err1]; simpl; [|discriminate].
    destruct (new_for_config w rc) as [cl|err2] eqn:Hnew; [|discriminate].
    intros [= -> ->]. auto.
  - destruct (load_from_file w path) as [cfg|err] eqn:Hload; simpl;
      [|discriminate].
    unfold result. rewrite createInterface_eval.
    destruct (client_config w (derived_client_config cfg)) as [rc|err]
      eqn:Hcc; simpl; [|discriminate].
    destruct (new_for_config w rc) as [cl|err2] eqn:Hnew; [|discriminate].
    intros [= -> ->]. split; [done|]. right. eauto 8.
Qed.

(** X14. No run of [CreateInterface] uses both sources of configuration:
    it never calls [rest.InClusterConfig] and [clientcmd.LoadFromFile] in
    one run, and it builds at most one client. *)
Theorem CreateInterface_one_source (w : World) (kubeconfig : string) :
  (List.filter is_InClusterConfig (trace (kube.CreateInterface kubeconfig) w)
   = [] \/
   List.filter is_LoadFromFile (trace (kube.CreateInterface kubeconfig) w)
   = []) /\
  length
    (List.filter is_NewForConfig (trace (kube.CreateInterface kubeconfig) w))
  <= 1.
Proof.
  destruct (CreateInterface_eval kubeconfig w)
    as (path & err & t & _ & Ht & Hrun).
  unfold trace. rewrite Hrun. clear Hrun.
  assert (List.filter is_InClusterConfig t = []) as H1
    by (apply (filter_none _ is_client_go); [now intros []|done]).
  assert (List.filter is_LoadFromFile t = []) as H2
    by (apply (filter_none _ is_client_go); [now intros []|done]).
  assert (List.filter is_NewForConfig t = []) as H3
    by (apply (filter_none _ is_client_go); [now intros []|done]).
  destruct err as [err|]; simpl; [rewrite H1, H3; simpl; auto|].
  destruct (decide (path = "")) as [->|Hne].
  - destruct (in_cluster w) as [rc|err1]; simpl;
      rewrite !List.filter_app, H2, H3; simpl; auto.
  - destruct (load_from_file w path) as [cfg|err]; simpl;
      rewrite !List.filter_app, H1, H3; simpl; auto.
    unfold trace. rewrite createInterface_eval.
    destruct (client_config w (derived_client_config cfg)); simpl; auto.
Qed.

(** * The further properties at concrete inputs *)

Lemma ResolveConfig_path_was_found_witness :
  (kube.ResolveConfig "" laptop_with_env
   = (Returned ("/b/cfg", None), [EvGetenv "KUBECONFIG"; EvStat "/b/cfg"]) /\
   "/b/cfg" <> "") /\
  (@None error = None /\
   (exists t0, resolveCandidate "" laptop_with_env = (Returned "/b/cfg", t0) /\
               [EvGetenv "KUBECONFIG"; EvStat "/b/cfg"]
               = t0 ++ [EvStat "/b/cfg"]) /\
   (exists info, fs_stat laptop_with_env "/b/cfg" = inl info /\
                 os.Size info <> 0%Z)).
Proof.
  split; [split; done|].
  apply (ResolveConfig_path_was_found laptop_with_env "" "/b/cfg" None
           [EvGetenv "KUBECONFIG"; EvStat "/b/cfg"]); done.
Defined.

Lemma ResolveConfig_path_origin_witness :
  (kube.ResolveConfig "" laptop_with_env
   = (Returned ("/b/cfg", None), [EvGetenv "KUBECONFIG"; EvStat "/b/cfg"]) /\
   "/b/cfg" <> "") /\
  ((("" : string) <> "" /\ "/b/cfg" = "") \/
   (("" : string) = "" /\
    environ laptop_with_env !! "KUBECONFIG" = Some "/b/cfg") \/
   (("" : string) = "" /\ KUBECONFIG_value laptop_with_env = "" /\
    exists usr, current_user laptop_with_env = inl usr /\
                "/b/cfg" = user.HomeDir usr +:+ "/.kube/config")).
Proof.
  split; [split; done|].
  apply (ResolveConfig_path_origin laptop_with_env "" "/b/cfg" None
           [EvGetenv "KUBECONFIG"; EvStat "/b/cfg"]); done.
Defined.

Lemma ResolveConfig_error_origin_witness :
  kube.ResolveConfig "/secret/cfg" headless
  = (Returned
       ("", Some (MultiError
                    [PathError "stat" "/secret/cfg" EACCES;
                     Errorf "kubernetes configuration file %q"
                       ["/secret/cfg"]])),
     [EvStat "/secret/cfg"]) /\
  exists c t0,
    resolveCandidate "/secret/cfg" headless = (Returned c, t0) /\
    c <> "" /\ ("" : string) = "" /\ [EvStat "/secret/cfg"] = t0 ++ [EvStat c] /\
    ((fs_stat headless c = inr ENOENT /\
      MultiError [PathError "stat" "/secret/cfg" EACCES;
                  Errorf "kubernetes configuration file %q" ["/secret/cfg"]]
      = Errorf "kubernetes configuration file %q does not exist" [c]) \/
     (exists errno,
        fs_stat headless c = inr errno /\ errno <> ENOENT /\
        MultiError [PathError "stat" "/secret/cfg" EACCES;
                    Errorf "kubernetes configuration file %q" ["/secret/cfg"]]
        = MultiError [PathError "stat" c errno;
                      Errorf "kubernetes configuration file %q" [c]])).
Proof.
  split; [reflexivity|].
  apply (ResolveConfig_error_origin headless "/secret/cfg" ""). reflexivity.
Defined.

Lemma ResolveConfig_log_means_empty_file_witness :
  (In (EvLogInfo "using in-cluster configuration")
     (trace (kube.ResolveConfig "") laptop_of_bob) /\
   is_LogInfo (EvLogInfo "using in-cluster configuration") = true) /\
  result (kube.ResolveConfig "") laptop_of_bob = Returned ("", None) /\
  exists c t0 info,
    resolveCandidate "" laptop_of_bob = (Returned c, t0) /\
    fs_stat laptop_of_bob c = inl info /\ os.Size info = 0%Z.
Proof.
  assert (In (EvLogInfo "using in-cluster configuration")
            (trace (kube.ResolveConfig "") laptop_of_bob)) as Hin
    by (do 4 right; left; reflexivity).
  split; [split; [exact Hin|reflexivity]|].
  apply (ResolveConfig_log_means_empty_file laptop_of_bob ""
           (EvLogInfo "using in-cluster configuration") Hin). reflexivity.
Defined.

Lemma ResolveConfig_frame_witness :
  (KUBECONFIG_value laptop_of_alice
   = KUBECONFIG_value (laptop {[ "KUBECONFIG" := "" ]} (inl alice)) /\
   resolveCandidate "" laptop_of_alice
   = (Returned "/home/alice/.kube/config",
      [EvGetenv "KUBECONFIG"; EvUserCurrent; EvStat ""])) /\
  kube.ResolveConfig "" laptop_of_alice
  = kube.ResolveConfig "" (laptop {[ "KUBECONFIG" := "" ]} (inl alice)).
Proof.
  split; [split; reflexivity|].
  apply (ResolveConfig_frame laptop_of_alice
           (laptop {[ "KUBECONFIG" := "" ]} (inl alice)) ""
           "/home/alice/.kube/config"
           [EvGetenv "KUBECONFIG"; EvUserCurrent; EvStat ""]);
    reflexivity.
Defined.

Lemma ResolveConfig_explicit_frame_witness :
  ("/a/cfg" <> "" /\
   fs_stat laptop_with_env "/a/cfg" = fs_stat headless "/a/cfg") /\
  kube.ResolveConfig "/a/cfg" laptop_with_env
  = kube.ResolveConfig "/a/cfg" headless.
Proof.
  split; [split; done|].
  apply (ResolveConfig_explicit_frame laptop_with_env headless "/a/cfg");
    done.
Defined.

Lemma ResolveConfig_resolved_is_stable_witness :
  (kube.ResolveConfig "" laptop_with_env
   = (Returned ("/b/cfg", None), [EvGetenv "KUBECONFIG"; EvStat "/b/cfg"]) /\
   "/b/cfg" <> "") /\
  kube.ResolveConfig "/b/cfg" laptop_with_env
  = (Returned ("/b/cfg", None), [EvStat "/b/cfg"]).
Proof.
  split; [split; done|].
  apply (ResolveConfig_resolved_is_stable laptop_with_env "" "/b/cfg" None
           [EvGetenv "KUBECONFIG"; EvStat "/b/cfg"]); done.
Defined.

Lemma CreateInterface_resolution_error_witness :
  kube.ResolveConfig "/nope" headless
  = (Returned
       ("", Some (Errorf "kubernetes configuration file %q does not exist"
                    ["/nope"])),
     [EvStat "/nope"]) /\
  kube.CreateInterface "/nope" headless
  = (Returned
       (None, None,
        Some (Errorf "kubernetes configuration file %q does not exist"
                ["/nope"])),
     [EvStat "/nope"]) /\
  Forall (fun e => is_client_go e = false)
    (trace (kube.CreateInterface "/nope") headless).
Proof.
  split; [reflexivity|].
  apply (CreateInterface_resolution_error headless "/nope" ""). reflexivity.
Defined.

Lemma CreateInterface_missing_default_witness :
  (KUBECONFIG_value pod_with_home = "" /\
   current_user pod_with_home = inl root /\
   fs_stat pod_with_home "/root/.kube/config" = inr ENOENT /\
   in_cluster pod_with_home = inl cluster_rest) /\
  kube.CreateInterface "" pod_with_home
  = (Returned
       (None, None,
        Some (Errorf "kubernetes configuration file %q does not exist"
                ["/root/.kube/config"])),
     [EvGetenv "KUBECONFIG"; EvUserCurrent; EvStat "";
      EvStat "/root/.kube/config"]).
Proof.
  split; [repeat split; reflexivity|].
  apply (CreateInterface_missing_default pod_with_home root); reflexivity.
Defined.

Lemma CreateInterface_from_file_witness :
  (kube.ResolveConfig "/b/cfg" broken_laptop
   = (Returned ("/b/cfg", None), [EvStat "/b/cfg"]) /\
   load_from_file broken_laptop "/b/cfg" = inl sample_config /\
   kube.ResolveConfig "/a/cfg" broken_laptop
   = (Returned ("/a/cfg", None), [EvStat "/a/cfg"]) /\
   load_from_file broken_laptop "/a/cfg"
   = inr (LibraryError "yaml: did not find expected key")) /\
  kube.CreateInterface "/b/cfg" broken_laptop
  = (result (kube.CreateInterfaceFromClusterConfig (Some sample_config))
       broken_laptop,
     [EvStat "/b/cfg"] ++ EvLoadFromFile "/b/cfg"
       :: trace (kube.CreateInterfaceFromClusterConfig (Some sample_config))
            broken_laptop) /\
  kube.CreateInterface "/a/cfg" broken_laptop
  = (Returned
       (None, None, Some (LibraryError "yaml: did not find expected key")),
     [EvStat "/a/cfg"] ++ [EvLoadFromFile "/a/cfg"]).
Proof.
  split; [repeat split; reflexivity|]. split.
  - destruct (CreateInterface_from_file broken_laptop "/b/cfg" "/b/cfg"
                [EvStat "/b/cfg"]) as [Hload _]; [reflexivity|done|].
    apply (Hload sample_config). reflexivity.
  - destruct (CreateInterface_from_file broken_laptop "/a/cfg" "/a/cfg"
                [EvStat "/a/cfg"]) as [_ Hfail]; [reflexivity|done|].
    apply (Hfail (LibraryError "yaml: did not find expected key")).
    reflexivity.
Defined.

Lemma CreateInterfaceFromClusterConfig_success_witness :
  (client_config headless (derived_client_config sample_config)
   = inl {| rest.Host := "https://k8s.example:6443";
            rest.BearerToken := "secret"; rest.CAFile := "" |} /\
   new_for_config headless
     {| rest.Host := "https://k8s.example:6443";
        rest.BearerToken := "secret"; rest.CAFile := "" |}
   = inl {| kubernetes.clientsetConfig :=
              {| rest.Host := "https://k8s.example:6443";
                 rest.BearerToken := "secret"; rest.CAFile := "" |} |}) /\
  result (kube.CreateInterfaceFromClusterConfig (Some sample_config)) headless
  = Returned
      (Some {| rest.Host := "https://k8s.example:6443";
               rest.BearerToken := "secret"; rest.CAFile := "" |},
       Some {| kubernetes.clientsetConfig :=
                 {| rest.Host := "https://k8s.example:6443";
                    rest.BearerToken := "secret"; rest.CAFile := "" |} |},
       None).
Proof.
  split; [split; reflexivity|].
  apply (CreateInterfaceFromClusterConfig_success headless sample_config).
  split; reflexivity.
Defined.


Lemma CreateInterface_success_witness :
  result (kube.CreateInterface "/a/cfg") headless
  = Returned
      (Some {| rest.Host := "https://k8s.example:6443";
               rest.BearerToken := "secret"; rest.CAFile := "" |},
       Some {| kubernetes.clientsetConfig :=
                 {| rest.Host := "https://k8s.example:6443";
                    rest.BearerToken := "secret"; rest.CAFile := "" |} |},
       None) /\
  exists path cfg,
    result (kube.ResolveConfig "/a/cfg") headless = Returned (path, None) /\
    path <> "" /\
    load_from_file headless path = inl cfg /\
    client_config headless (derived_client_config cfg)
    = inl {| rest.Host := "https://k8s.example:6443";
             rest.BearerToken := "secret"; rest.CAFile := "" |}.
Proof.
  split; [reflexivity|].
  destruct (CreateInterface_success headless "/a/cfg"
              {| rest.Host := "https://k8s.example:6443";
                 rest.BearerToken := "secret"; rest.CAFile := "" |}
              {| kubernetes.clientsetConfig :=
                   {| rest.Host := "https://k8s.example:6443";
                      rest.BearerToken := "secret"; rest.CAFile := "" |} |})
    as [_ [[_ Hin]|Hfile]]; [reflexivity|discriminate Hin|exact Hfile].
Defined.
